(** * A shallow embedding of the video-platform backend controllers

    The controllers of the repository (likes, tweets, comments, playlists,
    channel dashboard, login) are translated into functions over an explicit
    database state.  A MongoDB collection is a finite map from [_id] to
    document; a request handler is a computation in a state-and-exception
    monad whose result is either the exception handed to [next(err)] by
    [asyncHandler] or the response written with [res.status(..).json(..)]. *)

From stdpp Require Import base option list strings gmap fin_maps sorting.

Set Default Proof Using "Type".

(* ===================================================================== *)
(** ** Identifiers, request parameters, JSON values                       *)
(* ===================================================================== *)

(** A MongoDB [ObjectId]. *)
Abbreviation ObjectId := nat.

(** A route parameter such as [req.params.videoId]: a string that either is
    the hexadecimal form of an [ObjectId] or is not. *)
Inductive param :=
| Oid (o : ObjectId)
| Malformed (s : string).

(** mongoose's [isValidObjectId]. *)
Definition isValidObjectId (id : param) : bool :=
  match id with
  | Oid _ => true
  | Malformed _ => false
  end.

(** A value as it is compared inside an aggregation expression.  The driver
    serialises a JavaScript [undefined] as [null]. *)
Inductive bson :=
| BNull
| BOid (o : ObjectId).

#[global] Instance bson_eq_dec : EqDecision bson.
Proof. solve_decision. Defined.

Definition bson_of_user (u : option ObjectId) : bson :=
  match u with
  | Some o => BOid o
  | None => BNull
  end.

(** The JSON payload of a response. *)
#[warnings="-register-all"]
Inductive json :=
| JNull
| JBool (b : bool)
| JNum (n : nat)
| JStr (s : string)
| JId (o : ObjectId)
| JArr (l : list json)
| JObj (fields : list (string * json)).

(** [obj.key] on a JSON object; [None] is JavaScript's [undefined]. *)
Fixpoint assoc (k : string) (fields : list (string * json)) : option json :=
  match fields with
  | [] => None
  | (k', v) :: rest => if String.eqb k k' then Some v else assoc k rest
  end.

Definition field (k : string) (j : json) : option json :=
  match j with
  | JObj fields => assoc k fields
  | _ => None
  end.

Definition json_of_param (p : param) : json :=
  match p with
  | Oid o => JId o
  | Malformed s => JStr s
  end.

(** A key that is present only when the value is defined: JSON
    serialisation drops [undefined] properties. *)
Definition opt_field (k : string) (v : option ObjectId) : list (string * json) :=
  match v with
  | Some o => [(k, JId o)]
  | None => []
  end.

(** JavaScript truthiness of an optional string ([undefined] and the empty
    string are falsy), as tested by [if (!content)]. *)
Definition truthy (s : option string) : bool :=
  match s with
  | Some s => negb (String.eqb s "")
  | None => false
  end.

(** [n || 0] on an optional number. *)
Definition or0 (n : option nat) : nat :=
  match n with
  | Some (S k) => S k
  | Some O => 0
  | None => 0
  end.

(* ===================================================================== *)
(** ** Exceptions and responses                                           *)
(* ===================================================================== *)

Inductive exn :=
| ApiError (statusCode : nat) (message : string)
| CastError (value : string)   (* mongoose: a malformed id reached a query *)
| TypeError (what : string)    (* a property read on undefined *)
| Error (message : string).    (* a rejection of an external library *)

(** Modelled from the spec: the response envelope [ApiResponse]
    ([utils/ApiResponse.js] is not among the sources).  Section 6 gives the
    success envelope as [{statusCode, data, message, success:true}]; the
    message is absent when the constructor is called with two arguments. *)
Record ApiResponse := new_ApiResponse {
  statusCode : nat;
  data : json;
  message : option string;
  success : bool
}.

(** [res.status(code).cookie(..).json(body)]. *)
Record Response := mkResponse {
  status : nat;
  cookies : list (string * string);
  body : ApiResponse
}.

(* ===================================================================== *)
(** ** Documents                                                          *)
(* ===================================================================== *)

(** Documents carry the fields that the controllers read and write; the
    [_id] is the key of the document in its collection.  An absent field is
    [None].  The schemas of likes, videos, tweets, comments, playlists and
    subscriptions are not among the sources: a document is taken to hold
    what the controllers put into it, under the names they use. *)

Module Like.
Record doc := mk {
  video : option ObjectId;
  comment : option ObjectId;
  tweet : option ObjectId;
  likedBy : option ObjectId;
  commentedBy : option ObjectId;
  tweetedBy : option ObjectId;
  createdAt : nat
}.
End Like.

Module Video.
Record doc := mk {
  owner : ObjectId;
  title : string;
  description : string;
  videoFile : string;
  thumbnail : string;
  views : nat;
  duration : nat;
  isPublished : bool;
  createdAt : nat
}.
End Video.

Module Tweet.
Record doc := mk {
  content : string;
  owner : option ObjectId;
  createdAt : nat
}.
End Tweet.

Module Comment.
Record doc := mk {
  content : string;
  video : ObjectId;
  owner : ObjectId;
  createdAt : nat
}.
End Comment.

Module Playlist.
Record doc := mk {
  name : string;
  description : string;
  videos : list ObjectId;
  owner : option ObjectId
}.
End Playlist.

Module Subscription.
Record doc := mk {
  channel : ObjectId;
  subscriber : ObjectId
}.
End Subscription.

Module User.
Record doc := mk {
  userName : string;
  email : string;
  fullName : string;
  avatar : string;
  coverImage : string;
  password : string;
  refreshToken : option string
}.
End User.

(* ===================================================================== *)
(** ** The database and the handler monad                                 *)
(* ===================================================================== *)

Record Db := mkDb {
  users : gmap nat User.doc;
  videos : gmap nat Video.doc;
  tweets : gmap nat Tweet.doc;
  comments : gmap nat Comment.doc;
  likes : gmap nat Like.doc;
  playlists : gmap nat Playlist.doc;
  subscriptions : gmap nat Subscription.doc;
  clock : nat
}.

Definition emptyDb : Db := mkDb ∅ ∅ ∅ ∅ ∅ ∅ ∅ 0.

(** A handler: runs on a database, leaves a database, and either throws or
    returns.  What was written before a throw stays written. *)
Definition M (A : Type) : Type := Db → (exn + A) * Db.

Definition ret {A} (a : A) : M A := λ db, (inr a, db).

Definition throw {A} (e : exn) : M A := λ db, (inl e, db).

Definition bind {A B} (c : M A) (k : A → M B) : M B :=
  λ db, match c db with
        | (inl e, db') => (inl e, db')
        | (inr a, db') => k a db'
        end.

Notation "'let*' x ':=' c 'in' k" := (bind c (λ x, k))
  (at level 10, x pattern, c at level 100, k at level 200, only parsing).

(** The exception or response of a handler run, and the database it leaves. *)
Definition outcome {A} (r : (exn + A) * Db) : exn + A := r.1.
Definition after {A} (r : (exn + A) * Db) : Db := r.2.

(** [res.status(code).json(new ApiResponse(code', data, message))]. *)
Definition respond (code code' : nat) (d : json) (msg : option string) : M Response :=
  ret (mkResponse code [] (new_ApiResponse code' d msg true)).

(* ===================================================================== *)
(** ** Mongoose models                                                    *)
(* ===================================================================== *)

(** A model gives access to one collection of the database. *)
Record Model (D : Type) := mkModel {
  coll : Db → gmap nat D;
  with_coll : gmap nat D → Db → Db
}.
Arguments coll {D}.
Arguments with_coll {D}.

Definition tick (db : Db) : Db :=
  mkDb (users db) (videos db) (tweets db) (comments db) (likes db)
       (playlists db) (subscriptions db) (S (clock db)).

Definition Users : Model User.doc :=
  mkModel _ users (λ c db, mkDb c (videos db) (tweets db) (comments db)
    (likes db) (playlists db) (subscriptions db) (clock db)).
Definition Videos : Model Video.doc :=
  mkModel _ videos (λ c db, mkDb (users db) c (tweets db) (comments db)
    (likes db) (playlists db) (subscriptions db) (clock db)).
Definition Tweets : Model Tweet.doc :=
  mkModel _ tweets (λ c db, mkDb (users db) (videos db) c (comments db)
    (likes db) (playlists db) (subscriptions db) (clock db)).
Definition Comments : Model Comment.doc :=
  mkModel _ comments (λ c db, mkDb (users db) (videos db) (tweets db) c
    (likes db) (playlists db) (subscriptions db) (clock db)).
Definition Likes : Model Like.doc :=
  mkModel _ likes (λ c db, mkDb (users db) (videos db) (tweets db)
    (comments db) c (playlists db) (subscriptions db) (clock db)).
Definition Playlists : Model Playlist.doc :=
  mkModel _ playlists (λ c db, mkDb (users db) (videos db) (tweets db)
    (comments db) (likes db) c (subscriptions db) (clock db)).
Definition Subscriptions : Model Subscription.doc :=
  mkModel _ subscriptions (λ c db, mkDb (users db) (videos db) (tweets db)
    (comments db) (likes db) (playlists db) c (clock db)).

Section model.
Context {D : Type}.

(** The documents of a collection that satisfy a filter, in the
    collection's natural order. *)
Definition find_docs (q : D → bool) (c : gmap nat D) : list (nat * D) :=
  map_to_list (filter (λ kd, q kd.2 = true) c).

Definition countDocuments (q : D → bool) (c : gmap nat D) : nat :=
  length (find_docs q c).

(** [Model.findOne(filter)]. *)
Definition findOne (m : Model D) (q : D → bool) : M (option (nat * D)) :=
  λ db, (inr (head (find_docs q (coll m db))), db).

(** [Model.findById(id)]: mongoose rejects with a [CastError] when the id
    is not the string form of an ObjectId. *)
Definition findById (m : Model D) (id : param) : M (option (nat * D)) :=
  match id with
  | Malformed s => throw (CastError s)
  | Oid o => λ db, (inr ((λ d, (o, d)) <$> coll m db !! o), db)
  end.

(** [Model.create(fields)]: a fresh [_id], and the creation time stamp. *)
Definition create (m : Model D) (mk : nat → D) : M (nat * D) :=
  λ db, let id := fresh (dom (coll m db)) in
        let d := mk (clock db) in
        (inr (id, d), tick (with_coll m (<[id := d]> (coll m db)) db)).

(** [Model.findByIdAndUpdate(id, update, { new: true })]. *)
Definition findByIdAndUpdate (m : Model D) (id : param) (upd : D → D)
  : M (option (nat * D)) :=
  match id with
  | Malformed s => throw (CastError s)
  | Oid o => λ db,
      match coll m db !! o with
      | Some d => (inr (Some (o, upd d)),
                   with_coll m (<[o := upd d]> (coll m db)) db)
      | None => (inr None, db)
      end
  end.

(** [Model.findByIdAndDelete(id)]. *)
Definition findByIdAndDelete (m : Model D) (id : param) : M (option (nat * D)) :=
  match id with
  | Malformed s => throw (CastError s)
  | Oid o => λ db,
      (inr ((λ d, (o, d)) <$> coll m db !! o),
       with_coll m (delete o (coll m db)) db)
  end.

(** [Model.deleteMany(filter)]. *)
Definition deleteMany (m : Model D) (q : D → bool) : M unit :=
  λ db, (inr tt, with_coll m (filter (λ kd, q kd.2 = false) (coll m db)) db).
End model.

(** [Model.aggregate(pipeline)]: a read of the database. *)
Definition aggregate {A} (pipeline : Db → A) : M A :=
  λ db, (inr (pipeline db), db).

(** [$lookup] on [foreignField: "_id"]: the document a reference points to,
    as a list of at most one element; nothing for an absent reference. *)
Definition lookup_by_id {D} (c : gmap nat D) (ref : option nat) : list (nat * D) :=
  match ref with
  | Some o => match c !! o with Some d => [(o, d)] | None => [] end
  | None => []
  end.

(** The cast that mongoose applies to an id used in a filter or a document. *)
Definition cast (id : param) : M nat :=
  match id with
  | Oid o => ret o
  | Malformed s => throw (CastError s)
  end.

(** [$sort: { createdAt: -1 }]: a stable sort, newest first. *)
Fixpoint insert_desc {A} (key : A → nat) (x : A) (l : list A) : list A :=
  match l with
  | [] => [x]
  | y :: l' => if bool_decide (key y ≤ key x) then x :: y :: l'
               else y :: insert_desc key x l'
  end.

Definition sort_desc {A} (key : A → nat) (l : list A) : list A :=
  foldr (insert_desc key) [] l.

(** [$group: { _id: null, ... }]: one bucket when any document reaches the
    stage, none otherwise. *)
Definition group_null {A B} (acc : list A → B) (l : list A) : list B :=
  match l with
  | [] => []
  | _ :: _ => [acc l]
  end.

(** [$in: [v, "$joined.field"]]. *)
Definition in_array (v : bson) (arr : list bson) : bool :=
  bool_decide (v ∈ arr).

(* ===================================================================== *)
(** ** like.controller.js                                                 *)
(* ===================================================================== *)

Module LikeController.

Definition validateObjectId (id : param) (type : string) : M unit :=
  if negb (isValidObjectId id)
  then throw (ApiError 400 ("Invalid " +:+ type +:+ " ID"))
  else ret tt.

(** [req.user?._id] is [user]; [None] when no identity is attached, in
    which case the filter asks for a record without [likedBy] and the
    created record has none. *)
Definition toggleVideoLike (user : option ObjectId) (videoId : param) : M Response :=
  let* _ := validateObjectId videoId "video" in
  let* v := cast videoId in
  let* likedAlready := findOne Likes (λ l,
    bool_decide (Like.video l = Some v) &&
    bool_decide (Like.likedBy l = user)) in
  match likedAlready with
  | Some (id, _) =>
      let* _ := findByIdAndDelete Likes (Oid id) in
      respond 200 200 (JObj [("isLiked", JBool false)]) None
  | None =>
      let* _ := create Likes (Like.mk (Some v) None None user None None) in
      respond 200 200 (JObj [("isLiked", JBool true)]) None
  end.

Definition toggleCommentLike (user : option ObjectId) (commentId : param) : M Response :=
  let* _ := validateObjectId commentId "comment" in
  let* c := cast commentId in
  let* likedAlready := findOne Likes (λ l,
    bool_decide (Like.comment l = Some c) &&
    bool_decide (Like.commentedBy l = user)) in
  match likedAlready with
  | Some (id, _) =>
      let* _ := findByIdAndDelete Likes (Oid id) in
      respond 200 200 (JObj [("isCommented", JBool false)]) None
  | None =>
      let* _ := create Likes (Like.mk None (Some c) None None user None) in
      respond 200 200 (JObj [("isCommented", JBool true)]) None
  end.

Definition toggleTweetLike (user : option ObjectId) (tweetId : param) : M Response :=
  let* _ := validateObjectId tweetId "tweet" in
  let* t := cast tweetId in
  let* likedAlready := findOne Likes (λ l,
    bool_decide (Like.tweet l = Some t) &&
    bool_decide (Like.tweetedBy l = user)) in
  match likedAlready with
  | Some (id, _) =>
      let* _ := findByIdAndDelete Likes (Oid id) in
      respond 200 200
        (JObj [("tweetId", json_of_param tweetId); ("isTweeted", JBool false)]) None
  | None =>
      let* _ := create Likes (Like.mk None None (Some t) None None user) in
      respond 200 200 (JObj [("isTweeted", JBool true)]) None
  end.

(** One element of the [getLikedVideos] result: the like's time stamp
    (the sort key), the joined video and the [fullName] of its owner,
    the only key of [ownerDetails] that the user schema has. *)
Record LikedVideo := mkLikedVideo {
  lv_createdAt : nat;
  lv_id : ObjectId;
  lv_video : Video.doc;
  lv_ownerFullName : string
}.

(** [$match], [$lookup] with its inner [$lookup] and [$unwind], [$unwind],
    [$sort].  [new mongoose.Types.ObjectId(undefined)] is a newly generated
    id, which no stored like refers to. *)
Definition likedVideosAggregate (user : option ObjectId) (db : Db) : list LikedVideo :=
  let matched := find_docs (λ l,
    match user with
    | Some u => bool_decide (Like.likedBy l = Some u)
    | None => false
    end) (likes db) in
  let unwound :=
    l ← matched;
    v ← lookup_by_id (videos db) (Like.video l.2);
    o ← lookup_by_id (users db) (Some (Video.owner v.2));
    [mkLikedVideo (Like.createdAt l.2) v.1 v.2 (User.fullName o.2)] in
  sort_desc lv_createdAt unwound.

(** [$project]. *)
Definition likedVideo_json (x : LikedVideo) : json :=
  JObj [("likedVideo", JObj [
    ("_id", JId (lv_id x));
    ("videoFile", JObj [("url", JStr (Video.videoFile (lv_video x)))]);
    ("thumbnail", JObj [("url", JStr (Video.thumbnail (lv_video x)))]);
    ("owner", JId (Video.owner (lv_video x)));
    ("title", JStr (Video.title (lv_video x)));
    ("description", JStr (Video.description (lv_video x)));
    ("views", JNum (Video.views (lv_video x)));
    ("duration", JNum (Video.duration (lv_video x)));
    ("createdAt", JNum (Video.createdAt (lv_video x)));
    ("isPublished", JBool (Video.isPublished (lv_video x)));
    ("ownerDetails", JObj [("fullName", JStr (lv_ownerFullName x))])])].

Definition getLikedVideos (user : option ObjectId) : M Response :=
  let* likedVideos := aggregate (likedVideosAggregate user) in
  respond 200 200 (JArr (likedVideo_json <$> likedVideos))
    (Some "Liked videos fetched successfully").

End LikeController.

(* ===================================================================== *)
(** ** dashbord.controller.js                                             *)
(* ===================================================================== *)

Module DashboardController.

Definition getUserId (user : option ObjectId) : M ObjectId :=
  match user with
  | None => throw (ApiError 401 "User not authenticated")
  | Some userId => ret userId
  end.

Definition getTotalSubscribers (userId : ObjectId) : M nat :=
  let* result := aggregate (λ db,
    let matched := find_docs (λ s, bool_decide (Subscription.channel s = userId))
                             (subscriptions db) in
    group_null (λ g, length g) matched) in
  ret (or0 (head result)).

Record VideoStats := mkVideoStats {
  totalLikes : nat;
  totalViews : nat;
  totalVideos : nat
}.

Definition getVideoStats (userId : ObjectId) : M VideoStats :=
  let* result := aggregate (λ db,
    let matched := find_docs (λ v, bool_decide (Video.owner v = userId)) (videos db) in
    let projected := (λ v : nat * Video.doc,
      (length (find_docs (λ l, bool_decide (Like.video l = Some v.1)) (likes db)),
       Video.views v.2)) <$> matched in
    group_null (λ g, mkVideoStats (sum_list (fst <$> g)) (sum_list (snd <$> g))
                                  (length g)) projected) in
  ret (mkVideoStats (or0 (totalLikes <$> head result))
                    (or0 (totalViews <$> head result))
                    (or0 (totalVideos <$> head result))).

Definition getChannelStats (user : option ObjectId) : M Response :=
  let* userId := getUserId user in
  let* totalSubscribers := getTotalSubscribers userId in
  let* videoStats := getVideoStats userId in
  let channelStats := JObj [
    ("totalSubscribers", JNum totalSubscribers);
    ("totalLikes", JNum (totalLikes videoStats));
    ("totalViews", JNum (totalViews videoStats));
    ("totalVideos", JNum (totalVideos videoStats))] in
  respond 200 200 channelStats (Some "Channel stats fetched successfully").

(** One element of the [getChannelVideos] result. *)
Record ChannelVideo := mkChannelVideo {
  chv_id : ObjectId;
  chv_video : Video.doc;
  chv_likesCount : nat
}.

(** [$match], [$lookup], [$addFields], [$sort].  The sort key is
    [createdAt] after [$dateToParts] has replaced it by its parts; parts
    are compared year first, which orders the videos as their time stamps
    do. *)
Definition channelVideosAggregate (userId : ObjectId) (db : Db) : list ChannelVideo :=
  let matched := find_docs (λ v, bool_decide (Video.owner v = userId)) (videos db) in
  let added := (λ v : nat * Video.doc,
    mkChannelVideo v.1 v.2
      (length (find_docs (λ l, bool_decide (Like.video l = Some v.1)) (likes db))))
    <$> matched in
  sort_desc (λ x, Video.createdAt (chv_video x)) added.

(** [$project]; [dateToParts] gives the year, month and day of a time
    stamp. *)
Definition channelVideo_json (dateToParts : nat → nat * nat * nat)
    (x : ChannelVideo) : json :=
  JObj [("_id", JId (chv_id x));
        ("videoFile", JObj [("url", JStr (Video.videoFile (chv_video x)))]);
        ("thumbnail", JObj [("url", JStr (Video.thumbnail (chv_video x)))]);
        ("title", JStr (Video.title (chv_video x)));
        ("description", JStr (Video.description (chv_video x)));
        ("createdAt",
         JObj [("year", JNum (dateToParts (Video.createdAt (chv_video x))).1.1);
               ("month", JNum (dateToParts (Video.createdAt (chv_video x))).1.2);
               ("day", JNum (dateToParts (Video.createdAt (chv_video x))).2)]);
        ("isPublished", JBool (Video.isPublished (chv_video x)));
        ("likesCount", JNum (chv_likesCount x))].

Definition getChannelVideos (dateToParts : nat → nat * nat * nat)
    (user : option ObjectId) : M Response :=
  let* userId := getUserId user in
  let* videos := aggregate (channelVideosAggregate userId) in
  respond 200 200 (JArr (channelVideo_json dateToParts <$> videos))
    (Some "Videos fetched successfully").

End DashboardController.

(* ===================================================================== *)
(** ** tweet.controller.js                                                *)
(* ===================================================================== *)

(** [entity.owner.toString() !== req.user?._id.toString()]: reading
    [toString] of an absent owner raises; with no identity attached the
    right-hand side is [undefined], which differs from every string. *)
Definition owner_mismatch (owner user : option ObjectId) : M bool :=
  match owner with
  | None => throw (TypeError "owner.toString")
  | Some o => ret (negb (bool_decide (user = Some o)))
  end.

Module TweetController.

Definition tweet_json (t : nat * Tweet.doc) : json :=
  JObj ([("_id", JId t.1); ("content", JStr (Tweet.content t.2))]
        ++ opt_field "owner" (Tweet.owner t.2)
        ++ [("createdAt", JNum (Tweet.createdAt t.2))]).

(** [Tweet.create] resolves to the stored document, so the [!tweet] test
    that follows it in the source never fires. *)
Definition createTweet (user : option ObjectId) (content : option string) : M Response :=
  if negb (truthy content) then throw (ApiError 400 "Content is required")
  else
    let* tweet := create Tweets (Tweet.mk (default "" content) user) in
    respond 200 200 (tweet_json tweet) (Some "Tweet created successfully").

Definition updateTweet (user : option ObjectId) (content : option string)
    (tweetId : param) : M Response :=
  if negb (truthy content) then throw (ApiError 400 "Content is required")
  else if negb (isValidObjectId tweetId) then throw (ApiError 400 "Invalid tweetId")
  else
    let* tweet := findById Tweets tweetId in
    match tweet with
    | None => throw (ApiError 404 "Tweet not found")
    | Some (_, tweet) =>
        let* differs := owner_mismatch (Tweet.owner tweet) user in
        if differs then throw (ApiError 400 "Only the owner can edit their tweet")
        else
          let* newTweet := findByIdAndUpdate Tweets tweetId
            (λ t, Tweet.mk (default "" content) (Tweet.owner t) (Tweet.createdAt t)) in
          match newTweet with
          | None => throw (ApiError 500 "Failed to update tweet. Please try again.")
          | Some newTweet =>
              respond 200 200 (tweet_json newTweet) (Some "Tweet updated successfully")
          end
    end.

Definition deleteTweet (user : option ObjectId) (tweetId : param) : M Response :=
  if negb (isValidObjectId tweetId) then throw (ApiError 400 "Invalid tweetId")
  else
    let* tweet := findById Tweets tweetId in
    match tweet with
    | None => throw (ApiError 404 "Tweet not found")
    | Some (_, tweet) =>
        let* differs := owner_mismatch (Tweet.owner tweet) user in
        if differs then throw (ApiError 400 "Only the owner can delete their tweet")
        else
          let* _ := findByIdAndDelete Tweets tweetId in
          respond 200 200 (JObj [("tweetId", json_of_param tweetId)])
            (Some "Tweet deleted successfully")
    end.

(** One element of the [getUserTweets] result.  [ownerDetails] is the
    first joined user after the inner [$project]; the user schema has
    neither [username] nor [avatar.url], so only its [_id] is left. *)
Record TweetView := mkTweetView {
  tv_id : ObjectId;
  tv_content : string;
  tv_ownerDetails : option ObjectId;
  tv_likesCount : nat;
  tv_createdAt : nat;
  tv_isLiked : bool
}.

(** [$match], the two [$lookup]s, [$addFields], [$sort]. *)
Definition userTweetsAggregate (user : option ObjectId) (userId : ObjectId)
    (db : Db) : list TweetView :=
  let matched := find_docs (λ t, bool_decide (Tweet.owner t = Some userId))
                           (tweets db) in
  let added := (λ t : nat * Tweet.doc,
    let ownerDetails := lookup_by_id (users db) (Tweet.owner t.2) in
    let likeDetails := find_docs (λ l, bool_decide (Like.tweet l = Some t.1))
                                 (likes db) in
    mkTweetView t.1 (Tweet.content t.2)
      (fst <$> head ownerDetails)
      (length likeDetails)
      (Tweet.createdAt t.2)
      (if in_array (bson_of_user user)
            (omap (λ l : nat * Like.doc, BOid <$> Like.likedBy l.2) likeDetails)
       then true else false)) <$> matched in
  sort_desc tv_createdAt added.

(** [$project]. *)
Definition tweetView_json (x : TweetView) : json :=
  JObj ([("_id", JId (tv_id x)); ("content", JStr (tv_content x))]
        ++ match tv_ownerDetails x with
           | Some o => [("ownerDetails", JObj [("_id", JId o)])]
           | None => []
           end
        ++ [("likesCount", JNum (tv_likesCount x));
            ("createdAt", JNum (tv_createdAt x));
            ("isLiked", JBool (tv_isLiked x))]).

Definition getUserTweets (user : option ObjectId) (userId : param) : M Response :=
  if negb (isValidObjectId userId) then throw (ApiError 400 "Invalid userId")
  else
    let* u := cast userId in
    let* tweets := aggregate (userTweetsAggregate user u) in
    respond 200 200 (JArr (tweetView_json <$> tweets))
      (Some "Tweets fetched successfully").

End TweetController.

(* ===================================================================== *)
(** ** comment.controller.js                                              *)
(* ===================================================================== *)

Module CommentController.

Definition comment_json (c : nat * Comment.doc) : json :=
  JObj [("_id", JId c.1); ("content", JStr (Comment.content c.2));
        ("video", JId (Comment.video c.2)); ("owner", JId (Comment.owner c.2));
        ("createdAt", JNum (Comment.createdAt c.2))].

(** One element of the comment listing.  [owner] is the first joined
    user projected on [username], [fullName] and [avatar.url], of which
    the user schema has [fullName] only. *)
Record CommentView := mkCommentView {
  cv_id : ObjectId;
  cv_content : string;
  cv_createdAt : nat;
  cv_likesCount : nat;
  cv_owner : option string;
  cv_isLiked : bool
}.

(** [$match], the two [$lookup]s, [$addFields], [$sort]. *)
Definition commentsAggregate (user : option ObjectId) (videoId : ObjectId)
    (db : Db) : list CommentView :=
  let matched := find_docs (λ c, bool_decide (Comment.video c = videoId))
                           (comments db) in
  let added := (λ c : nat * Comment.doc,
    let owner := lookup_by_id (users db) (Some (Comment.owner c.2)) in
    let likes := find_docs (λ l, bool_decide (Like.comment l = Some c.1))
                           (likes db) in
    mkCommentView c.1 (Comment.content c.2) (Comment.createdAt c.2)
      (length likes)
      ((λ o : nat * User.doc, User.fullName o.2) <$> head owner)
      (in_array (bson_of_user user)
         (omap (λ l : nat * Like.doc, BOid <$> Like.likedBy l.2) likes))) <$> matched in
  sort_desc cv_createdAt added.

(** [$project]. *)
Definition commentView_json (x : CommentView) : json :=
  JObj ([("_id", JId (cv_id x)); ("content", JStr (cv_content x));
         ("createdAt", JNum (cv_createdAt x));
         ("likesCount", JNum (cv_likesCount x))]
        ++ match cv_owner x with
           | Some n => [("owner", JObj [("fullName", JStr n)])]
           | None => []
           end
        ++ [("isLiked", JBool (cv_isLiked x))]).

Record Page (A : Type) := mkPage {
  docs : list A;
  totalDocs : nat;
  limit : nat;
  page : nat
}.
Arguments mkPage {A}.
Arguments docs {A}.
Arguments totalDocs {A}.
Arguments limit {A}.
Arguments page {A}.

(** Modelled from the spec: [Comment.aggregatePaginate], which the comment
    model takes from a pagination plug-in ([comment.model.js] is not among
    the sources).  Section 4.1: pagination is a generic post-aggregation
    stage that skips [(page-1)*limit], takes [limit], and separately
    computes the total count for the metadata. *)
Definition aggregatePaginate {A} (results : list A) (page limit : nat) : Page A :=
  mkPage (take limit (drop ((page - 1) * limit) results))
         (length results) limit page.

Definition page_json (p : Page CommentView) : json :=
  JObj [("docs", JArr (commentView_json <$> docs p));
        ("totalDocs", JNum (totalDocs p));
        ("limit", JNum (limit p));
        ("page", JNum (page p))].

(** [mongoose.Types.ObjectId(videoId)], written without the [new] that the
    other controllers put before it.  [ObjectId] is a class, and a class
    called as a function raises a [TypeError] before it looks at its
    argument. *)
Definition ObjectId_without_new (id : param) : M ObjectId :=
  throw (TypeError "Class constructor ObjectId cannot be invoked without 'new'").

(** [req.query.page] and [req.query.limit] are decimal strings; they are
    taken here as already parsed by [parseInt(_, 10)], [None] when the
    query does not carry them.  The pipeline is an array literal, whose
    [$match] stage holds the call [mongoose.Types.ObjectId(videoId)]: the
    call is evaluated when the array is built, after the video has been
    looked up and before [Comment.aggregate] and [Comment.aggregatePaginate]
    are reached. *)
Definition getVideoComments (user : option ObjectId) (videoId : param)
    (page limit : option nat) : M Response :=
  let page := default 1 page in
  let limit := default 10 limit in
  let* video := findById Videos videoId in
  match video with
  | None => throw (ApiError 404 "Video not found")
  | Some _ =>
      let* v := ObjectId_without_new videoId in
      let* commentsAggregate := aggregate (commentsAggregate user v) in
      let comments := aggregatePaginate commentsAggregate page limit in
      respond 200 200 (page_json comments) (Some "Comments fetched successfully")
  end.

(** [req.user._id] without optional chaining: a [TypeError] when no
    identity is attached. *)
Definition user_id (user : option ObjectId) : M ObjectId :=
  match user with
  | Some u => ret u
  | None => throw (TypeError "req.user._id")
  end.

Definition addComment (user : option ObjectId) (videoId : param)
    (content : option string) : M Response :=
  if negb (truthy content) then throw (ApiError 400 "Content is required")
  else
    let* video := findById Videos videoId in
    match video with
    | None => throw (ApiError 404 "Video not found")
    | Some (v, _) =>
        let* u := user_id user in
        let* comment := create Comments (Comment.mk (default "" content) v u) in
        respond 201 201 (comment_json comment) (Some "Comment added successfully")
    end.

Definition updateComment (user : option ObjectId) (commentId : param)
    (content : option string) : M Response :=
  if negb (truthy content) then throw (ApiError 400 "Content is required")
  else
    let* comment := findById Comments commentId in
    match comment with
    | None => throw (ApiError 404 "Comment not found")
    | Some (_, comment) =>
        let* u := user_id user in
        if negb (bool_decide (Comment.owner comment = u))
        then throw (ApiError 403 "Only the comment owner can update this comment")
        else
          let* updatedComment := findByIdAndUpdate Comments commentId
            (λ c, Comment.mk (default "" content) (Comment.video c)
                             (Comment.owner c) (Comment.createdAt c)) in
          respond 200 200 (from_option comment_json JNull updatedComment)
            (Some "Comment updated successfully")
    end.

(** The final [Comment.deleteMany({ comment, likedBy })] filters the
    comment collection on two fields that comment documents do not have;
    it matches none of them. *)
Definition deleteComment (user : option ObjectId) (commentId : param) : M Response :=
  let* comment := findById Comments commentId in
  match comment with
  | None => throw (ApiError 404 "Comment not found")
  | Some (_, comment) =>
      let* u := user_id user in
      if negb (bool_decide (Comment.owner comment = u))
      then throw (ApiError 403 "Only the comment owner can delete this comment")
      else
        let* _ := findByIdAndDelete Comments commentId in
        let* _ := deleteMany Comments (λ _, false) in
        respond 200 200 (JObj [("commentId", json_of_param commentId)])
          (Some "Comment deleted successfully")
  end.

End CommentController.

(* ===================================================================== *)
(** ** playlist.controller.js                                             *)
(* ===================================================================== *)

Module PlaylistController.

Definition playlist_json (p : nat * Playlist.doc) : json :=
  JObj ([("_id", JId p.1); ("name", JStr (Playlist.name p.2));
         ("description", JStr (Playlist.description p.2));
         ("videos", JArr (JId <$> Playlist.videos p.2))]
        ++ opt_field "owner" (Playlist.owner p.2)).

(** [$addToSet: { videos: v }]. *)
Definition addToSet (v : ObjectId) (l : list ObjectId) : list ObjectId :=
  if bool_decide (v ∈ l) then l else l ++ [v].

(** [$pull: { videos: v }]. *)
Definition pull (v : ObjectId) (l : list ObjectId) : list ObjectId :=
  filter (λ x, x ≠ v) l.

Definition createPlaylist (user : option ObjectId) (name description : option string)
    : M Response :=
  if negb (truthy name) || negb (truthy description)
  then throw (ApiError 400 "Name and description are required")
  else
    let* playlist := create Playlists (λ _,
      Playlist.mk (default "" name) (default "" description) [] user) in
    respond 200 200 (playlist_json playlist) (Some "Playlist created successfully").

Definition updatePlaylist (user : option ObjectId) (name description : option string)
    (playlistId : param) : M Response :=
  if negb (truthy name) || negb (truthy description)
  then throw (ApiError 400 "Name and description are required")
  else if negb (isValidObjectId playlistId) then throw (ApiError 400 "Invalid PlaylistId")
  else
    let* playlist := findById Playlists playlistId in
    match playlist with
    | None => throw (ApiError 404 "Playlist not found")
    | Some (id, playlist) =>
        let* differs := owner_mismatch (Playlist.owner playlist) user in
        if differs then throw (ApiError 400 "Only the owner can edit the playlist")
        else
          let* updatedPlaylist := findByIdAndUpdate Playlists (Oid id)
            (λ p, Playlist.mk (default "" name) (default "" description)
                              (Playlist.videos p) (Playlist.owner p)) in
          respond 200 200 (from_option playlist_json JNull updatedPlaylist)
            (Some "Playlist updated successfully")
    end.

Definition deletePlaylist (user : option ObjectId) (playlistId : param) : M Response :=
  if negb (isValidObjectId playlistId) then throw (ApiError 400 "Invalid PlaylistId")
  else
    let* playlist := findById Playlists playlistId in
    match playlist with
    | None => throw (ApiError 404 "Playlist not found")
    | Some (id, playlist) =>
        let* differs := owner_mismatch (Playlist.owner playlist) user in
        if differs then throw (ApiError 400 "Only the owner can delete the playlist")
        else
          let* _ := findByIdAndDelete Playlists (Oid id) in
          respond 200 200 (JObj []) (Some "Playlist deleted successfully")
    end.

Definition addVideoToPlaylist (user : option ObjectId) (playlistId videoId : param)
    : M Response :=
  if negb (isValidObjectId playlistId) || negb (isValidObjectId videoId)
  then throw (ApiError 400 "Invalid PlaylistId or VideoId")
  else
    let* playlist := findById Playlists playlistId in
    let* video := findById Videos videoId in
    match playlist with
    | None => throw (ApiError 404 "Playlist not found")
    | Some (id, playlist) =>
        match video with
        | None => throw (ApiError 404 "Video not found")
        | Some (v, _) =>
            let* differs := owner_mismatch (Playlist.owner playlist) user in
            if differs
            then throw (ApiError 400 "Only the owner can add videos to their playlist")
            else
              let* updatedPlaylist := findByIdAndUpdate Playlists (Oid id)
                (λ p, Playlist.mk (Playlist.name p) (Playlist.description p)
                                  (addToSet v (Playlist.videos p)) (Playlist.owner p)) in
              respond 200 200 (from_option playlist_json JNull updatedPlaylist)
                (Some "Video added to playlist successfully")
        end
    end.

Definition removeVideoFromPlaylist (user : option ObjectId) (playlistId videoId : param)
    : M Response :=
  if negb (isValidObjectId playlistId) || negb (isValidObjectId videoId)
  then throw (ApiError 400 "Invalid PlaylistId or VideoId")
  else
    let* playlist := findById Playlists playlistId in
    let* video := findById Videos videoId in
    match playlist with
    | None => throw (ApiError 404 "Playlist not found")
    | Some (_, playlist) =>
        match video with
        | None => throw (ApiError 404 "Video not found")
        | Some (v, _) =>
            let* differs := owner_mismatch (Playlist.owner playlist) user in
            if differs
            then throw (ApiError 400 "Only the owner can remove videos from their playlist")
            else
              let* updatedPlaylist := findByIdAndUpdate Playlists playlistId
                (λ p, Playlist.mk (Playlist.name p) (Playlist.description p)
                                  (pull v (Playlist.videos p)) (Playlist.owner p)) in
              respond 200 200 (from_option playlist_json JNull updatedPlaylist)
                (Some "Video removed from playlist successfully")
        end
    end.

(** [$lookup] with an array as [localField]: the stored documents whose
    [_id] is one of the references, each once, in the natural order of
    their collection. *)
Definition lookup_in {D} (c : gmap nat D) (refs : list ObjectId) : list (nat * D) :=
  map_to_list (filter (λ kd, kd.1 ∈ refs) c).

(** The result of [getPlaylistById].  Playlist documents carry no time
    stamp in this model, so the [createdAt] and [updatedAt] keys of the
    projection select nothing; [pd_owner] is the [fullName] of the first
    joined user, the only projected key that the user schema has. *)
Record PlaylistDetail := mkPlaylistDetail {
  pd_id : ObjectId;
  pd_name : string;
  pd_description : string;
  pd_totalVideos : nat;
  pd_totalViews : nat;
  pd_videos : list (nat * Video.doc);
  pd_owner : option string
}.

(** [$match] on [_id], [$lookup] of the videos, [$match] on
    ["videos.isPublished": true] (a playlist passes when one of its joined
    videos is published), [$lookup] of the owner, [$addFields]. *)
Definition playlistByIdAggregate (playlistId : ObjectId) (db : Db) : list PlaylistDetail :=
  let matched := lookup_by_id (playlists db) (Some playlistId) in
  let joined := (λ p : nat * Playlist.doc,
    (p, lookup_in (videos db) (Playlist.videos p.2))) <$> matched in
  let published := filter (λ pj : (nat * Playlist.doc) * list (nat * Video.doc),
    existsb (λ v : nat * Video.doc, Video.isPublished v.2) pj.2 = true) joined in
  (λ pj : (nat * Playlist.doc) * list (nat * Video.doc),
    let owner := lookup_by_id (users db) (Playlist.owner pj.1.2) in
    mkPlaylistDetail pj.1.1 (Playlist.name pj.1.2) (Playlist.description pj.1.2)
      (length pj.2)
      (sum_list ((λ v : nat * Video.doc, Video.views v.2) <$> pj.2))
      pj.2
      ((λ o : nat * User.doc, User.fullName o.2) <$> head owner)) <$> published.

(** [$project]. *)
Definition playlistVideo_json (v : nat * Video.doc) : json :=
  JObj [("_id", JId v.1);
        ("videoFile", JObj [("url", JStr (Video.videoFile v.2))]);
        ("thumbnail", JObj [("url", JStr (Video.thumbnail v.2))]);
        ("title", JStr (Video.title v.2));
        ("description", JStr (Video.description v.2));
        ("duration", JNum (Video.duration v.2));
        ("createdAt", JNum (Video.createdAt v.2));
        ("views", JNum (Video.views v.2))].

Definition playlistDetail_json (x : PlaylistDetail) : json :=
  JObj ([("_id", JId (pd_id x)); ("name", JStr (pd_name x));
         ("description", JStr (pd_description x));
         ("totalVideos", JNum (pd_totalVideos x));
         ("totalViews", JNum (pd_totalViews x));
         ("videos", JArr (playlistVideo_json <$> pd_videos x))]
        ++ match pd_owner x with
           | Some n => [("owner", JObj [("fullName", JStr n)])]
           | None => []
           end).

(** [playlistVideos[0]] is [undefined] when the aggregation returns
    nothing; the envelope then has no data, for which [JNull] stands. *)
Definition getPlaylistById (playlistId : param) : M Response :=
  if negb (isValidObjectId playlistId) then throw (ApiError 400 "Invalid PlaylistId")
  else
    let* p := cast playlistId in
    let* playlistVideos := aggregate (playlistByIdAggregate p) in
    respond 200 200 (from_option playlistDetail_json JNull (head playlistVideos))
      (Some "Playlist fetched successfully").

(** One element of the [getUserPlaylists] result (again without the
    [createdAt] that playlist documents do not carry here). *)
Record PlaylistSummary := mkPlaylistSummary {
  ps_id : ObjectId;
  ps_name : string;
  ps_description : string;
  ps_totalVideos : nat;
  ps_totalViews : nat
}.

(** [$match] on the owner, [$lookup] of the videos, [$addFields]. *)
Definition userPlaylistsAggregate (userId : ObjectId) (db : Db) : list PlaylistSummary :=
  let matched := find_docs (λ p, bool_decide (Playlist.owner p = Some userId))
                           (playlists db) in
  (λ p : nat * Playlist.doc,
    let videos := lookup_in (videos db) (Playlist.videos p.2) in
    mkPlaylistSummary p.1 (Playlist.name p.2) (Playlist.description p.2)
      (length videos)
      (sum_list ((λ v : nat * Video.doc, Video.views v.2) <$> videos))) <$> matched.

(** [$project]. *)
Definition playlistSummary_json (x : PlaylistSummary) : json :=
  JObj [("_id", JId (ps_id x)); ("name", JStr (ps_name x));
        ("description", JStr (ps_description x));
        ("totalVideos", JNum (ps_totalVideos x));
        ("totalViews", JNum (ps_totalViews x))].

Definition getUserPlaylists (userId : param) : M Response :=
  if negb (isValidObjectId userId) then throw (ApiError 400 "Invalid UserId")
  else
    let* u := cast userId in
    let* playlists := aggregate (userPlaylistsAggregate u) in
    respond 200 200 (JArr (playlistSummary_json <$> playlists))
      (Some "User playlists fetched successfully").

End PlaylistController.

(* ===================================================================== *)
(** ** user.model.js and the login controller                             *)
(* ===================================================================== *)

(** What an awaited call evaluates to in JavaScript when the callee may
    finish without a [return]. *)
Inductive jsval :=
| undefined
| JSBool (b : bool).

Definition js_truthy (v : jsval) : bool :=
  match v with
  | undefined => false
  | JSBool b => b
  end.

Section login.

(** [bcrypt.compare] on a plain text and a stored hash. *)
Variable bcrypt_compare : string → string → bool.

(** The setters that the options [lowercase: true, trim: true] of the user
    schema put on [userName] and on [email].  Mongoose runs them on a value
    it stores and on a value it meets under either name in a filter. *)
Variable normalise : string → string.

(** [await bcrypt.compare(password, hash)]: the library rejects when the
    plain text is missing. *)
Definition await_bcrypt_compare (password : option string) (hash : string) : M bool :=
  match password with
  | None => throw (Error "data and hash arguments required")
  | Some p => ret (bcrypt_compare p hash)
  end.

(** [userSchema.methods.isPasswordCorrect]: the comparison is awaited and
    its result dropped; the function body has no [return]. *)
Definition isPasswordCorrect (this : User.doc) (password : option string) : M jsval :=
  let* _ := await_bcrypt_compare password (User.password this) in
  ret undefined.

(** [generateAccessAndRefreshTokens].  The model attaches
    [generateAccessToken] and [generateRefreshToken] to [userSchema.method],
    not to [userSchema.methods], so a user document has neither; the call
    [user.generateAccessToken()] raises inside the [try], and the [catch]
    replaces whatever was raised by this error. *)
Definition generateAccessAndRefreshTokens (userId : ObjectId) : M (string * string) :=
  throw (ApiError 500 "Something went wrong while generating Refresh and Access token").

(** [.select("-password -refreshToken")]. *)
Definition user_json (u : nat * User.doc) : json :=
  JObj [("_id", JId u.1); ("userName", JStr (User.userName u.2));
        ("email", JStr (User.email u.2)); ("fullName", JStr (User.fullName u.2));
        ("avatar", JStr (User.avatar u.2)); ("coverImage", JStr (User.coverImage u.2))].

(** The body of a login request. *)
Record LoginBody := mkLoginBody {
  lb_email : option string;
  lb_userName : option string;
  lb_password : option string
}.

Definition loginUser (req : LoginBody) : M Response :=
  let email := lb_email req in
  let userName := lb_userName req in
  let password := lb_password req in
  if negb (truthy userName) || negb (truthy email)
  then throw (ApiError 400 "UserName or Email Required")
  else
    let* user := findOne Users (λ u,
      bool_decide (Some (User.userName u) = normalise <$> userName) ||
      bool_decide (Some (User.email u) = normalise <$> email)) in
    match user with
    | None => throw (ApiError 404 "User does not exists")
    | Some (id, user) =>
        let* isPasswordValid := isPasswordCorrect user password in
        if negb (js_truthy isPasswordValid)
        then throw (ApiError 401 "Invalid user credentials")
        else
          let* tokens := generateAccessAndRefreshTokens id in
          let* loggedInUser := findById Users (Oid id) in
          ret (mkResponse 200
                 [("accessToken", tokens.1); ("refreshToken", tokens.2)]
                 (new_ApiResponse 200
                    (JObj [("user", from_option user_json JNull loggedInUser);
                           ("refreshToken", JStr tokens.2);
                           ("accessToken", JStr tokens.1)])
                    (Some "User logged in successfully") true))
    end.

End login.

(* ===================================================================== *)
(** ** Registration                                                       *)
(* ===================================================================== *)

(** The body of a registration request. *)
Record RegisterBody := mkRegisterBody {
  rb_userName : option string;
  rb_email : option string;
  rb_fullName : option string;
  rb_password : option string
}.

(** [req.files]: for each form field, the paths of the uploaded files. *)
Record Files := mkFiles {
  f_avatar : option (list string);
  f_coverImage : option (list string)
}.

(** What the controller hands to [User.create]. *)
Record NewUser := mkNewUser {
  nu_fullName : option string;
  nu_avatar : string;
  nu_coverImage : string;
  nu_email : option string;
  nu_password : option string;
  nu_userName : string
}.

(** [req.files?.field[0]?.path]: [undefined] without [req.files]; reading
    index 0 of an absent field raises; an empty array gives [undefined]. *)
Definition first_path (files : option Files) (field : Files → option (list string))
    (what : string) : M (option string) :=
  match files with
  | None => ret None
  | Some f =>
      match field f with
      | None => throw (TypeError what)
      | Some paths => ret (head paths)
      end
  end.

(** A query that is not awaited is an object, and an object is truthy. *)
Definition pending {A} (query : M A) : bool := true.

Section register.

(** [String.prototype.trim] and [String.prototype.toLowerCase]. *)
Variable trim : string → string.
Variable toLowerCase : string → string.

(** The setters of the user schema on [userName] and [email], as in the
    login controller: they are run on the values of an awaited filter. *)
Variable normalise : string → string.

(** [uploadOnCloudinary] of [utils/cloudinary.js], which is not among the
    sources: from a local path to the [url] of the hosted file, or [null]. *)
Variable uploadOnCloudinary : option string → option string.

(** [User.create]: mongoose validates the fields against the schema, runs
    its setters and the [pre("save")] hook, and stores the document. *)
Variable User_create : NewUser → M (nat * User.doc).

(** [[fullName, email, password, userName].some((field) => field?.trim() === "")]:
    an absent field is not blank. *)
Definition some_blank (req : RegisterBody) : bool :=
  existsb (λ field : option string,
             match field with
             | Some f => String.eqb (trim f) ""
             | None => false
             end)
          [rb_fullName req; rb_email req; rb_password req; rb_userName req].

(** [userName.toLowerCase()]. *)
Definition lowered (userName : option string) : M string :=
  match userName with
  | Some n => ret (toLowerCase n)
  | None => throw (TypeError "userName.toLowerCase")
  end.

(** What follows the avatar test in both versions of the controller. *)
Definition upload_and_create (req : RegisterBody)
    (avatarLocalPath coverImageLocalPath : option string) : M Response :=
  let avatar := uploadOnCloudinary avatarLocalPath in
  let coverImage := uploadOnCloudinary coverImageLocalPath in
  match avatar with
  | None => throw (ApiError 400 "Avatar file is Required")
  | Some avatar_url =>
      let* userName := lowered (rb_userName req) in
      let* user := User_create
        (mkNewUser (rb_fullName req) avatar_url (default "" coverImage)
                   (rb_email req) (rb_password req) userName) in
      let* createdUser := findById Users (Oid user.1) in
      match createdUser with
      | None => throw (ApiError 500 "Something went wrong while registering the user")
      | Some createdUser =>
          respond 201 200 (user_json createdUser) (Some "User registed successfully")
      end
  end.

Definition registerUser (req : RegisterBody) (files : option Files) : M Response :=
  if some_blank req then throw (ApiError 400 "All Fields are Required")
  else
    let* existedUser := findOne Users (λ u,
      bool_decide (Some (User.userName u) = normalise <$> rb_userName req) ||
      bool_decide (Some (User.email u) = normalise <$> rb_email req)) in
    match existedUser with
    | Some _ => throw (ApiError 409 "User with Email or Username already exists")
    | None =>
        let* avatarLocalPath := first_path files f_avatar "avatar[0]" in
        let coverImageLocalPath :=
          match files with
          | Some f =>
              match f_coverImage f with
              | Some (path :: _) => Some path
              | _ => None
              end
          | None => None
          end in
        if negb (truthy avatarLocalPath)
        then throw (ApiError 400 "Avatar file is Required")
        else upload_and_create req avatarLocalPath coverImageLocalPath
    end.

(** The other version of the controller, kept in the same source file: the
    query for an existing user is not awaited, and the cover image path is
    read like the avatar path. *)
Definition registerUser_unawaited (req : RegisterBody) (files : option Files)
    : M Response :=
  if some_blank req then throw (ApiError 400 "All Fields are Required")
  else
    let existedUser := findOne Users (λ u,
      bool_decide (Some (User.userName u) = rb_userName req) ||
      bool_decide (Some (User.email u) = rb_email req)) in
    if pending existedUser
    then throw (ApiError 409 "User with Email or Username already exists")
    else
      let* avatarLocalPath := first_path files f_avatar "avatar[0]" in
      let* coverImageLocalPath := first_path files f_coverImage "coverImage[0]" in
      if negb (truthy avatarLocalPath)
      then throw (ApiError 400 "Avatar file is Required")
      else upload_and_create req avatarLocalPath coverImageLocalPath.

End register.

(* ===================================================================== *)
(** ** Vocabulary of the statements                                       *)
(* ===================================================================== *)

(** The target of a like, and the toggle that serves each kind of target. *)
Inductive target :=
| OnVideo (v : ObjectId)
| OnComment (c : ObjectId)
| OnTweet (t : ObjectId).

Definition toggle (user : option ObjectId) (t : target) : M Response :=
  match t with
  | OnVideo v => LikeController.toggleVideoLike user (Oid v)
  | OnComment c => LikeController.toggleCommentLike user (Oid c)
  | OnTweet t => LikeController.toggleTweetLike user (Oid t)
  end.

(** The existence query of each toggle: the like records of a
    (user, target) pair. *)
Definition pair_query (user : option ObjectId) (t : target) (l : Like.doc) : bool :=
  match t with
  | OnVideo v => bool_decide (Like.video l = Some v) && bool_decide (Like.likedBy l = user)
  | OnComment c =>
      bool_decide (Like.comment l = Some c) && bool_decide (Like.commentedBy l = user)
  | OnTweet t => bool_decide (Like.tweet l = Some t) && bool_decide (Like.tweetedBy l = user)
  end.

(** The record that each toggle creates. *)
Definition like_doc (user : option ObjectId) (t : target) (now : nat) : Like.doc :=
  match t with
  | OnVideo v => Like.mk (Some v) None None user None None now
  | OnComment c => Like.mk None (Some c) None None user None now
  | OnTweet t => Like.mk None None (Some t) None None user now
  end.

(** The key under which each toggle reports the new state. *)
Definition flag_key (t : target) : string :=
  match t with
  | OnVideo _ => "isLiked"
  | OnComment _ => "isCommented"
  | OnTweet _ => "isTweeted"
  end.

Definition like_count (user : option ObjectId) (t : target) (db : Db) : nat :=
  countDocuments (pair_query user t) (likes db).

(** The liked / not-liked state of a pair: presence of a record. *)
Definition liked (user : option ObjectId) (t : target) (db : Db) : bool :=
  bool_decide (0 < like_count user t db).

(** A handler run answers with status [code] and carries [v] under [key]. *)
Definition reports {A} (payload : A → json) (r : exn + A) (key : string) (v : json) : Prop :=
  ∃ resp, r = inr resp ∧ field key (payload resp) = Some v.

Definition payload (r : Response) : json := data (body r).

(** The database that a toggle leaves, read off the three handlers. *)
Definition toggled (user : option ObjectId) (t : target) (db : Db) : Db :=
  match head (find_docs (pair_query user t) (likes db)) with
  | Some (id, _) => with_coll Likes (delete id (likes db)) db
  | None =>
      tick (with_coll Likes
              (<[fresh (dom (likes db)) := like_doc user t (clock db)]> (likes db)) db)
  end.

(** A sequence of toggle requests served one after the other. *)
Definition run_toggles (reqs : list (option nat * target)) (db : Db) : Db :=
  foldl (λ db r, after (toggle r.1 r.2 db)) db reqs.

(** The data-model invariant of section 3: at most one like per pair. *)
Definition at_most_one_like (db : Db) : Prop :=
  ∀ user t, like_count user t db ≤ 1.

(** The toggles only ever store records of three shapes; in none of them
    does [likedBy] accompany a comment or a tweet reference. *)
Definition toggle_made (l : Like.doc) : Prop :=
  ∃ user t now, l = like_doc user t now.

Definition likes_from_toggles (db : Db) : Prop :=
  map_Forall (λ _ l, toggle_made l) (likes db).

(** The owner-guarded mutations of tweets, comments and playlists. *)
Inductive mutation :=
| UpdateTweet (content : option string) (tweetId : param)
| DeleteTweet (tweetId : param)
| UpdateComment (commentId : param) (content : option string)
| DeleteComment (commentId : param)
| UpdatePlaylist (name description : option string) (playlistId : param)
| DeletePlaylist (playlistId : param).

Definition serve (user : option ObjectId) (m : mutation) : M Response :=
  match m with
  | UpdateTweet content tweetId => TweetController.updateTweet user content tweetId
  | DeleteTweet tweetId => TweetController.deleteTweet user tweetId
  | UpdateComment commentId content =>
      CommentController.updateComment user commentId content
  | DeleteComment commentId => CommentController.deleteComment user commentId
  | UpdatePlaylist name description playlistId =>
      PlaylistController.updatePlaylist user name description playlistId
  | DeletePlaylist playlistId => PlaylistController.deletePlaylist user playlistId
  end.

(** The request carries the fields its handler requires and a well-formed
    id. *)
Definition well_formed (m : mutation) : bool :=
  match m with
  | UpdateTweet content tweetId => truthy content && isValidObjectId tweetId
  | DeleteTweet tweetId => isValidObjectId tweetId
  | UpdateComment commentId content => truthy content && isValidObjectId commentId
  | DeleteComment commentId => isValidObjectId commentId
  | UpdatePlaylist name description playlistId =>
      truthy name && truthy description && isValidObjectId playlistId
  | DeletePlaylist playlistId => isValidObjectId playlistId
  end.

(** The owner reference of the entity that a mutation addresses; the outer
    [None] when no such entity is stored. *)
Definition entity_owner (m : mutation) (db : Db) : option (option ObjectId) :=
  match m with
  | UpdateTweet _ (Oid o) | DeleteTweet (Oid o) => Tweet.owner <$> tweets db !! o
  | UpdateComment (Oid o) _ | DeleteComment (Oid o) =>
      (λ c, Some (Comment.owner c)) <$> comments db !! o
  | UpdatePlaylist _ _ (Oid o) | DeletePlaylist (Oid o) =>
      Playlist.owner <$> playlists db !! o
  | _ => None
  end.

Definition not_found (m : mutation) : exn :=
  match m with
  | UpdateTweet _ _ | DeleteTweet _ => ApiError 404 "Tweet not found"
  | UpdateComment _ _ | DeleteComment _ => ApiError 404 "Comment not found"
  | UpdatePlaylist _ _ _ | DeletePlaylist _ => ApiError 404 "Playlist not found"
  end.

(** What a caller other than the owner is answered. *)
Definition refusal (m : mutation) : exn :=
  match m with
  | UpdateTweet _ _ => ApiError 400 "Only the owner can edit their tweet"
  | DeleteTweet _ => ApiError 400 "Only the owner can delete their tweet"
  | UpdateComment _ _ => ApiError 403 "Only the comment owner can update this comment"
  | DeleteComment _ => ApiError 403 "Only the comment owner can delete this comment"
  | UpdatePlaylist _ _ _ => ApiError 400 "Only the owner can edit the playlist"
  | DeletePlaylist _ => ApiError 400 "Only the owner can delete the playlist"
  end.

Definition is_NotFound (e : exn) : Prop :=
  ∃ msg, e = ApiError 404 msg.

(** Section 7 files a non-owner mutation under Forbidden with either of
    the two status codes that the controllers use for it. *)
Definition is_Forbidden (e : exn) : Prop :=
  ∃ code msg, e = ApiError code msg ∧ (code = 400 ∨ code = 403).

(** The number of entries of a playlist that refer to a video. *)
Definition membership (v : ObjectId) (l : list ObjectId) : nat :=
  length (filter (λ x, x = v) l).

(** A playlist holds a set of video references. *)
Definition playlists_are_sets (db : Db) : Prop :=
  map_Forall (λ _ p, NoDup (Playlist.videos p)) (playlists db).

(** The number of comments stored for a video. *)
Definition comment_count (v : ObjectId) (db : Db) : nat :=
  countDocuments (λ c, bool_decide (Comment.video c = v)) (comments db).

(** What a successful [addVideoToPlaylist] leaves. *)
Definition added (p v : nat) (pl : Playlist.doc) (db : Db) : Db :=
  with_coll Playlists
    (<[p := Playlist.mk (Playlist.name pl) (Playlist.description pl)
              (PlaylistController.addToSet v (Playlist.videos pl))
              (Playlist.owner pl)]> (playlists db)) db.

(** The targets served by [toggleCommentLike] and [toggleTweetLike]. *)
Definition on_comment_or_tweet (t : target) : bool :=
  match t with
  | OnVideo _ => false
  | OnComment _ | OnTweet _ => true
  end.

(** A database with one video and [n] comments on it, built by the
    handler that adds comments. *)
Definition video0 : Video.doc := Video.mk 1 "title" "description" "file" "thumb" 0 0 true 0.
Definition db_with_comments (n : nat) : Db :=
  Nat.iter n (λ db, after (CommentController.addComment (Some 2) (Oid 0) (Some "nice") db))
    (mkDb ∅ {[0 := video0]} ∅ ∅ ∅ ∅ ∅ 0).

(** A stored user, for the examples. *)
Definition bob : User.doc :=
  User.mk "bob" "bob@example.com" "Bob" "avatar.png" "" "hash-of-secret" None.

Definition db_with_bob : Db := mkDb {[0 := bob]} ∅ ∅ ∅ ∅ ∅ ∅ 0.

(** A stand-in for bcrypt in examples: the hash of [p] is ["hash-of-" ++ p]. *)
Definition toy_compare (p hash : string) : bool :=
  String.eqb ("hash-of-" +:+ p) hash.

(** Lower case and no blanks at either end, on ASCII strings: what the
    setters of the user schema make of such a string, for the examples. *)
Definition lower_case (c : Ascii.ascii) : Ascii.ascii :=
  let n := Ascii.nat_of_ascii c in
  if (65 <=? n) && (n <=? 90) then Ascii.ascii_of_nat (n + 32) else c.

Fixpoint lower_cased (s : string) : string :=
  match s with
  | EmptyString => EmptyString
  | String c s => String (lower_case c) (lower_cased s)
  end.

Fixpoint trimmed_left (s : string) : string :=
  match s with
  | String c s' => if Ascii.nat_of_ascii c =? 32 then trimmed_left s' else s
  | EmptyString => EmptyString
  end.

Definition trimmed (s : string) : string :=
  String.rev (trimmed_left (String.rev (trimmed_left s))).

Definition ascii_normalise (s : string) : string := lower_cased (trimmed s).

(** The login request names a stored user: its user name or its email, as
    the schema normalises them in the filter, is the stored one. *)
Definition names (normalise : string → string) (req : LoginBody) (u : User.doc) : Prop :=
  Some (User.userName u) = normalise <$> lb_userName req ∨
  Some (User.email u) = normalise <$> lb_email req.

(** The same of a registration request. *)
Definition taken (normalise : string → string) (req : RegisterBody) (u : User.doc) : Prop :=
  Some (User.userName u) = normalise <$> rb_userName req ∨
  Some (User.email u) = normalise <$> rb_email req.

(** The stored videos of a channel, and the like records that refer to one
    of them. *)
Definition owned_videos (u : ObjectId) (db : Db) : list (nat * Video.doc) :=
  find_docs (λ v, bool_decide (Video.owner v = u)) (videos db).

Definition on_video_of (u : ObjectId) (db : Db) (l : Like.doc) : bool :=
  match Like.video l with
  | Some v => bool_decide (v ∈ (owned_videos u db).*1)
  | None => false
  end.

Definition total_likes (u : ObjectId) (db : Db) : nat :=
  countDocuments (on_video_of u db) (likes db).

(** The like records that refer to a video, a comment or a tweet, whoever
    made them. *)
Definition likes_on (t : target) (db : Db) : nat :=
  countDocuments (λ l,
    match t with
    | OnVideo v => bool_decide (Like.video l = Some v)
    | OnComment c => bool_decide (Like.comment l = Some c)
    | OnTweet x => bool_decide (Like.tweet l = Some x)
    end) (likes db).

(** What a mutation is answered when no identity is attached to the
    request: the tweet and playlist handlers compare the owner with
    [undefined] and refuse; the comment handlers read [req.user._id]. *)
Definition without_identity (m : mutation) : exn :=
  match m with
  | UpdateComment _ _ | DeleteComment _ => TypeError "req.user._id"
  | _ => refusal m
  end.

(** The requests that the playlist handlers serve. *)
Inductive playlist_request :=
| CreatePlaylist (name description : option string)
| ChangePlaylist (name description : option string) (playlistId : param)
| RemovePlaylist (playlistId : param)
| AddVideo (playlistId videoId : param)
| RemoveVideo (playlistId videoId : param).

Definition serve_playlist (r : option ObjectId * playlist_request) : M Response :=
  match r.2 with
  | CreatePlaylist name description =>
      PlaylistController.createPlaylist r.1 name description
  | ChangePlaylist name description playlistId =>
      PlaylistController.updatePlaylist r.1 name description playlistId
  | RemovePlaylist playlistId => PlaylistController.deletePlaylist r.1 playlistId
  | AddVideo playlistId videoId =>
      PlaylistController.addVideoToPlaylist r.1 playlistId videoId
  | RemoveVideo playlistId videoId =>
      PlaylistController.removeVideoFromPlaylist r.1 playlistId videoId
  end.

Definition run_playlist_requests (reqs : list (option ObjectId * playlist_request))
    (db : Db) : Db :=
  foldl (λ db r, after (serve_playlist r db)) db reqs.

(* ===================================================================== *)
(** ** Facts about collections                                            *)
(* ===================================================================== *)

Section collection_facts.
Context {D : Type}.
Implicit Types (c : gmap nat D) (q : D → bool).

Lemma elem_of_find_docs q c k d :
  (k, d) ∈ find_docs q c ↔ c !! k = Some d ∧ q d = true.
Proof.
  unfold find_docs. rewrite elem_of_map_to_list, map_lookup_filter_Some.
  reflexivity.
Qed.

Lemma head_find_docs_Some q c k d :
  head (find_docs q c) = Some (k, d) → c !! k = Some d ∧ q d = true.
Proof.
  intros Hhd. apply elem_of_find_docs.
  destruct (find_docs q c) as [|x l]; simplify_eq/=. left.
Qed.

Lemma head_find_docs_None q c :
  head (find_docs q c) = None ↔ countDocuments q c = 0.
Proof.
  unfold countDocuments. destruct (find_docs q c); simpl; split; congruence.
Qed.

Lemma find_docs_none q c :
  (∀ k d, c !! k = Some d → q d = false) → find_docs q c = [].
Proof.
  intros Hno. unfold find_docs. apply map_to_list_empty_iff.
  apply map_empty. intros k. apply map_lookup_filter_None. right.
  intros d Hk Hq. simpl in Hq. rewrite (Hno _ _ Hk) in Hq. discriminate.
Qed.

Lemma fresh_not_in c : c !! fresh (dom c) = None.
Proof. apply not_elem_of_dom, is_fresh. Qed.

Lemma countDocuments_insert q c k d :
  c !! k = None →
  countDocuments q (<[k := d]> c) = (if q d then 1 else 0) + countDocuments q c.
Proof.
  intros Hk. unfold countDocuments, find_docs.
  rewrite !length_map_to_list.
  destruct (q d) eqn:Hq.
  - rewrite map_filter_insert_True by done.
    rewrite map_size_insert_None; [done|].
    apply map_lookup_filter_None. by left.
  - rewrite map_filter_insert_not'; [done| |].
    + simpl. congruence.
    + intros y Hy. congruence.
Qed.

Lemma countDocuments_delete q c k d :
  c !! k = Some d →
  countDocuments q c = (if q d then 1 else 0) + countDocuments q (delete k c).
Proof.
  intros Hk. unfold countDocuments, find_docs.
  rewrite !length_map_to_list.
  destruct (q d) eqn:Hq.
  - assert (Hf : filter (λ kd : nat * D, q kd.2 = true) c !! k = Some d)
      by (by apply map_lookup_filter_Some).
    rewrite map_filter_delete, map_size_delete, Hf.
    destruct (size (filter _ c)) as [|n] eqn:Hsz; [|done].
    apply map_size_empty_iff in Hsz. rewrite Hsz, lookup_empty in Hf.
    discriminate.
  - rewrite map_filter_delete_not; [done|].
    intros y Hy. simpl. congruence.
Qed.

Lemma find_docs_insert_other q c k d :
  c !! k = None → q d = false → find_docs q (<[k := d]> c) = find_docs q c.
Proof.
  intros Hk Hq. unfold find_docs.
  rewrite map_filter_insert_not'; [done| |]; simpl; congruence.
Qed.

Lemma find_docs_delete_other q c k d :
  c !! k = Some d → q d = false → find_docs q (delete k c) = find_docs q c.
Proof.
  intros Hk Hq. unfold find_docs.
  rewrite map_filter_delete_not; [done|]. intros y Hy. simpl. congruence.
Qed.
End collection_facts.

(* ===================================================================== *)
(** ** The like toggle                                                    *)
(* ===================================================================== *)

Section like_toggle.
Implicit Types (user : option nat) (t : target) (db : Db).

Lemma after_toggle user t db : after (toggle user t db) = toggled user t db.
Proof.
  unfold toggled.
  destruct t; simpl;
    unfold LikeController.toggleVideoLike, LikeController.toggleCommentLike,
      LikeController.toggleTweetLike, bind, findOne, pair_query; simpl;
    destruct (head (find_docs _ (likes db))) as [[id d]|]; reflexivity.
Qed.

Lemma outcome_toggle user t db :
  outcome (toggle user t db) =
    inr (mkResponse 200 []
           (new_ApiResponse 200
              (match head (find_docs (pair_query user t) (likes db)), t with
               | Some _, OnTweet x =>
                   JObj [("tweetId", JId x); ("isTweeted", JBool false)]
               | Some _, _ => JObj [(flag_key t, JBool false)]
               | None, _ => JObj [(flag_key t, JBool true)]
               end) None true)).
Proof.
  destruct t; simpl;
    unfold LikeController.toggleVideoLike, LikeController.toggleCommentLike,
      LikeController.toggleTweetLike, bind, findOne, pair_query; simpl;
    destruct (head (find_docs _ (likes db))) as [[id d]|]; reflexivity.
Qed.

Lemma pair_query_like_doc user t now : pair_query user t (like_doc user t now) = true.
Proof. by destruct t; simpl; rewrite !bool_decide_eq_true_2. Qed.

Lemma pair_query_like_doc_inv user user' t t' now :
  pair_query user' t' (like_doc user t now) = true → user' = user ∧ t' = t.
Proof.
  destruct t, t'; simpl; intros H; try discriminate;
    apply andb_true_iff in H as [H1 H2];
    apply bool_decide_eq_true in H1; apply bool_decide_eq_true in H2;
    by simplify_eq.
Qed.

Lemma like_count_toggled user t db :
  like_count user t (toggled user t db) =
    match like_count user t db with
    | 0 => 1
    | S n => n
    end.
Proof.
  unfold toggled, like_count.
  destruct (head (find_docs _ (likes db))) as [[id d]|] eqn:Hhd.
  - apply head_find_docs_Some in Hhd as [Hid Hq]. simpl.
    rewrite (countDocuments_delete _ _ _ _ Hid), Hq. done.
  - apply head_find_docs_None in Hhd. rewrite Hhd. simpl.
    rewrite countDocuments_insert by apply fresh_not_in.
    by rewrite Hhd, pair_query_like_doc.
Qed.

(** Serving a toggle keeps every pair at no more than one like. *)
Lemma toggle_preserves_at_most_one user t db :
  at_most_one_like db → at_most_one_like (after (toggle user t db)).
Proof.
  intros Hinv user' t'. rewrite after_toggle. unfold toggled, like_count.
  specialize (Hinv user' t'). unfold like_count in Hinv.
  destruct (head (find_docs _ (likes db))) as [[id d]|] eqn:Hhd; simpl.
  - apply head_find_docs_Some in Hhd as [Hid _].
    rewrite (countDocuments_delete _ _ _ _ Hid) in Hinv. lia.
  - rewrite countDocuments_insert by apply fresh_not_in.
    destruct (pair_query user' t' _) eqn:Hq; [|done].
    apply pair_query_like_doc_inv in Hq as [-> ->].
    apply head_find_docs_None in Hhd. by rewrite Hhd.
Qed.

Lemma at_most_one_like_empty : at_most_one_like emptyDb.
Proof. intros user t. unfold like_count, countDocuments. vm_compute. lia. Qed.

(** Whatever toggles were served since the collection was empty, the
    invariant holds. *)
Lemma run_toggles_at_most_one reqs db :
  at_most_one_like db → at_most_one_like (run_toggles reqs db).
Proof.
  revert db. induction reqs as [|r reqs IH]; intros db Hinv; simpl; [done|].
  by apply IH, toggle_preserves_at_most_one.
Qed.
End like_toggle.

(** C1.  For a user and a target whose pair holds at most one like record
    (the data-model invariant, which the toggles maintain), serving the
    toggle twice in a row leaves the pair with as many like records as
    before, and in the same liked / not-liked state. *)
Theorem toggle_twice_restores (u : nat) (t : target) (db : Db) :
  like_count (Some u) t db ≤ 1 →
  let db'' := after (toggle (Some u) t (after (toggle (Some u) t db))) in
  like_count (Some u) t db'' = like_count (Some u) t db ∧
  liked (Some u) t db'' = liked (Some u) t db.
Proof.
  intros Hone db''. subst db''. unfold liked.
  rewrite !after_toggle, !like_count_toggled.
  destruct (like_count (Some u) t db) as [|[|n]]; [done|done|lia].
Qed.

Lemma toggle_twice_restores_witness :
  let db := run_toggles [(Some 1, OnVideo 5); (Some 2, OnVideo 5)] emptyDb in
  like_count (Some 1) (OnVideo 5) db ≤ 1 ∧
  (let db'' := after (toggle (Some 1) (OnVideo 5)
                        (after (toggle (Some 1) (OnVideo 5) db))) in
   like_count (Some 1) (OnVideo 5) db'' = like_count (Some 1) (OnVideo 5) db ∧
   liked (Some 1) (OnVideo 5) db'' = liked (Some 1) (OnVideo 5) db).
Proof.
  intros db. split.
  - vm_compute. lia.
  - apply (toggle_twice_restores 1 (OnVideo 5) db). vm_compute. lia.
Defined.

(** C2, as amended.  A toggle by an authenticated user on a well-formed
    target id runs the existence query for the pair.  When a record is
    found, that record is deleted and the response carries [false]; when
    none is found, one record for the pair is created and the response
    carries [true].  The flag is reported under [isLiked] by the video
    toggle, under [isCommented] by the comment toggle and under [isTweeted]
    by the tweet toggle. *)
Theorem toggle_reads_then_writes (u : nat) (t : target) (db : Db) :
  match head (find_docs (pair_query (Some u) t) (likes db)) with
  | Some (id, l) =>
      likes db !! id = Some l ∧ pair_query (Some u) t l = true ∧
      likes (after (toggle (Some u) t db)) = delete id (likes db) ∧
      S (like_count (Some u) t (after (toggle (Some u) t db))) =
        like_count (Some u) t db ∧
      reports payload (outcome (toggle (Some u) t db)) (flag_key t) (JBool false)
  | None =>
      like_count (Some u) t db = 0 ∧
      likes (after (toggle (Some u) t db)) =
        <[fresh (dom (likes db)) := like_doc (Some u) t (clock db)]> (likes db) ∧
      like_count (Some u) t (after (toggle (Some u) t db)) = 1 ∧
      reports payload (outcome (toggle (Some u) t db)) (flag_key t) (JBool true)
  end.
Proof.
  pose proof (like_count_toggled (Some u) t db) as Hcount.
  rewrite outcome_toggle, !after_toggle. unfold toggled in *.
  destruct (head (find_docs _ (likes db))) as [[id l]|] eqn:Hhd.
  - apply head_find_docs_Some in Hhd as [Hid Hq].
    assert (like_count (Some u) t db ≠ 0) as Hpos.
    { unfold like_count. rewrite (countDocuments_delete _ _ _ _ Hid), Hq. done. }
    repeat split; [done..| |].
    + rewrite Hcount. destruct (like_count (Some u) t db); done.
    + eexists; split; [done|]. by destruct t.
  - apply head_find_docs_None in Hhd. fold (like_count (Some u) t db) in Hhd.
    repeat split; [done..| |].
    + by rewrite Hcount, Hhd.
    + eexists; split; [done|]. by destruct t.
Qed.

(** C2 as first stated fails on the tweet toggle: with no like stored, the
    response of the toggle has no [isLiked]; the flag is [isTweeted]. *)
Lemma tweet_toggle_reports_isTweeted :
  like_count (Some 1) (OnTweet 7) emptyDb = 0 ∧
  outcome (LikeController.toggleTweetLike (Some 1) (Oid 7) emptyDb) =
    inr (mkResponse 200 []
           (new_ApiResponse 200 (JObj [("isTweeted", JBool true)]) None true)) ∧
  ¬ reports payload (outcome (LikeController.toggleTweetLike (Some 1) (Oid 7) emptyDb))
      "isLiked" (JBool true).
Proof.
  split; [by vm_compute|]. split; [by vm_compute|].
  intros (resp & Hresp & Hfield). vm_compute in Hresp.
  inversion Hresp; subst resp. vm_compute in Hfield. discriminate.
Qed.

(* ===================================================================== *)
(** ** Channel statistics                                                 *)
(* ===================================================================== *)

Section dashboard.
Import DashboardController.

(** C3, as amended.  For an authenticated owner whose channel has no
    subscription and who owns no video, [getChannelStats] answers 200 with
    exactly [{totalSubscribers:0, totalLikes:0, totalViews:0,
    totalVideos:0}]; it raises nothing, no field is null, and the
    database is left as it was. *)
Theorem channel_stats_of_empty_channel (u : nat) (db : Db) :
  (∀ k s, subscriptions db !! k = Some s → Subscription.channel s ≠ u) →
  (∀ k v, videos db !! k = Some v → Video.owner v ≠ u) →
  getChannelStats (Some u) db =
    (inr (mkResponse 200 []
            (new_ApiResponse 200
               (JObj [("totalSubscribers", JNum 0); ("totalLikes", JNum 0);
                      ("totalViews", JNum 0); ("totalVideos", JNum 0)])
               (Some "Channel stats fetched successfully") true)), db).
Proof.
  intros Hsubs Hvids.
  unfold getChannelStats, getUserId, getTotalSubscribers, getVideoStats,
    bind, aggregate, ret, respond. simpl.
  rewrite !find_docs_none; [done|..].
  - intros k v Hk. apply bool_decide_eq_false. eauto.
  - intros k s Hk. apply bool_decide_eq_false. eauto.
Qed.

Lemma channel_stats_of_empty_channel_witness :
  (∀ k s, subscriptions emptyDb !! k = Some s → Subscription.channel s ≠ 1) ∧
  (∀ k v, videos emptyDb !! k = Some v → Video.owner v ≠ 1) ∧
  getChannelStats (Some 1) emptyDb =
    (inr (mkResponse 200 []
            (new_ApiResponse 200
               (JObj [("totalSubscribers", JNum 0); ("totalLikes", JNum 0);
                      ("totalViews", JNum 0); ("totalVideos", JNum 0)])
               (Some "Channel stats fetched successfully") true)), emptyDb).
Proof.
  assert (H1 : ∀ k s, subscriptions emptyDb !! k = Some s → Subscription.channel s ≠ 1)
    by (intros k s Hk; simpl in Hk; rewrite lookup_empty in Hk; discriminate).
  assert (H2 : ∀ k v, videos emptyDb !! k = Some v → Video.owner v ≠ 1)
    by (intros k s Hk; simpl in Hk; rewrite lookup_empty in Hk; discriminate).
  split; [exact H1|]. split; [exact H2|].
  exact (channel_stats_of_empty_channel 1 emptyDb H1 H2).
Defined.

(** C3 as first stated fails on the names of two keys: the response has
    neither [subscriberCount] nor [totalVideoCount]. *)
Lemma channel_stats_keys :
  ¬ reports payload (outcome (getChannelStats (Some 1) emptyDb))
      "subscriberCount" (JNum 0) ∧
  ¬ reports payload (outcome (getChannelStats (Some 1) emptyDb))
      "totalVideoCount" (JNum 0) ∧
  ¬ (∃ resp, outcome (getChannelStats (Some 1) emptyDb) = inr resp ∧
       payload resp = JObj [("subscriberCount", JNum 0); ("totalLikes", JNum 0);
                            ("totalViews", JNum 0); ("totalVideoCount", JNum 0)]).
Proof.
  repeat split; intros (resp & Hresp & Hfield); vm_compute in Hresp;
    inversion Hresp; subst resp; vm_compute in Hfield; discriminate.
Qed.
End dashboard.

(* ===================================================================== *)
(** ** Tweets                                                             *)
(* ===================================================================== *)

Section tweets.
Import TweetController.

Lemma truthy_nonempty (c : string) : c ≠ "" → truthy (Some c) = true.
Proof.
  intros Hc. simpl. apply negb_true_iff. by apply String.eqb_neq.
Qed.

(** C5, as amended.  A tweet creation request with non-empty content by
    an authenticated user [u] succeeds with HTTP status 200; the response
    data is the stored tweet, whose content is the submitted content and
    whose owner is [u]. *)
Theorem createTweet_returns_the_tweet (u : nat) (c : string) (db : Db) :
  c ≠ "" →
  let id := fresh (dom (tweets db)) in
  let tweet := Tweet.mk c (Some u) (clock db) in
  createTweet (Some u) (Some c) db =
    (inr (mkResponse 200 []
            (new_ApiResponse 200 (tweet_json (id, tweet))
               (Some "Tweet created successfully") true)),
     tick (with_coll Tweets (<[id := tweet]> (tweets db)) db)) ∧
  field "content" (tweet_json (id, tweet)) = Some (JStr c) ∧
  field "owner" (tweet_json (id, tweet)) = Some (JId u) ∧
  tweets db !! id = None.
Proof.
  intros Hc id tweet. unfold createTweet.
  rewrite (truthy_nonempty c Hc). simpl.
  repeat split. apply fresh_not_in.
Qed.

Lemma createTweet_returns_the_tweet_witness :
  "hello" ≠ "" ∧
  let id := fresh (dom (tweets emptyDb)) in
  let tweet := Tweet.mk "hello" (Some 1) (clock emptyDb) in
  createTweet (Some 1) (Some "hello") emptyDb =
    (inr (mkResponse 200 []
            (new_ApiResponse 200 (tweet_json (id, tweet))
               (Some "Tweet created successfully") true)),
     tick (with_coll Tweets (<[id := tweet]> (tweets emptyDb)) emptyDb)) ∧
  field "content" (tweet_json (id, tweet)) = Some (JStr "hello") ∧
  field "owner" (tweet_json (id, tweet)) = Some (JId 1) ∧
  tweets emptyDb !! id = None.
Proof.
  assert (H : "hello" ≠ "") by discriminate.
  split; [exact H|]. exact (createTweet_returns_the_tweet 1 "hello" emptyDb H).
Defined.

(** C5 as first stated fails on the status: the handler answers 200,
    not 201. *)
Lemma createTweet_status_200 :
  (∃ resp, outcome (createTweet (Some 1) (Some "hello") emptyDb) = inr resp ∧
     status resp = 200 ∧ statusCode (body resp) = 200) ∧
  ¬ (∃ resp, outcome (createTweet (Some 1) (Some "hello") emptyDb) = inr resp ∧
       status resp = 201).
Proof.
  split.
  - eexists. split; [by vm_compute|]. by split.
  - intros (resp & Hresp & Hstatus). vm_compute in Hresp.
    inversion Hresp; subst resp. discriminate.
Qed.
End tweets.

(* ===================================================================== *)
(** ** The ownership guard                                                *)
(* ===================================================================== *)

Section ownership.

Ltac unfold_handlers :=
  unfold serve, TweetController.updateTweet, TweetController.deleteTweet,
    CommentController.updateComment, CommentController.deleteComment,
    PlaylistController.updatePlaylist, PlaylistController.deletePlaylist,
    CommentController.user_id, owner_mismatch, findById, bind, ret, throw.

(** C4, as amended.  Take an update or a delete of a tweet, a comment or
    a playlist whose request carries the fields its handler requires and
    a well-formed id.  If the entity is not stored, the handler raises
    NotFound (404) whoever the caller is, the lookup coming before the
    ownership test.  If the entity is stored and owned by someone other
    than the authenticated caller, the handler raises an error of the
    Forbidden kind (400 for tweets and playlists, 403 for comments) and
    the database is left as it was. *)
Theorem guarded_mutation (user : option nat) (u : nat) (m : mutation) (db : Db) :
  well_formed m = true →
  (entity_owner m db = None →
     serve user m db = (inl (not_found m), db) ∧ is_NotFound (not_found m)) ∧
  (∀ o, entity_owner m db = Some (Some o) → o ≠ u →
     serve (Some u) m db = (inl (refusal m), db) ∧ is_Forbidden (refusal m)).
Proof.
  intros Hwf. split.
  - intros Hnone. split; [|destruct m; by eexists].
    destruct m as [c [o|s]|[o|s]|[o|s] c|[o|s]|n d [o|s]|[o|s]];
      simpl in Hwf, Hnone; repeat (apply andb_true_iff in Hwf as [Hwf ?]);
      try discriminate; unfold_handlers; simpl;
      apply fmap_None in Hnone; rewrite ?Hwf, ?Hnone; simpl;
      repeat match goal with H : truthy _ = true |- _ => rewrite H; clear H end;
      simpl; by rewrite ?Hnone.
  - intros o Hsome Hne. split; [|destruct m; eexists _, _; split; eauto].
    destruct m as [c [o'|s]|[o'|s]|[o'|s] c|[o'|s]|n d [o'|s]|[o'|s]];
      simpl in Hwf, Hsome; repeat (apply andb_true_iff in Hwf as [Hwf ?]);
      try discriminate; unfold_handlers; simpl;
      apply fmap_Some in Hsome as (e & He & Ho);
      repeat match goal with H : truthy _ = true |- _ => rewrite H; clear H end;
      simpl; rewrite He; simpl; simplify_eq;
      try rewrite <-Ho; simpl;
      (rewrite bool_decide_eq_false_2 by congruence); done.
Qed.

Lemma guarded_mutation_witness :
  let db := after (TweetController.createTweet (Some 2) (Some "hi") emptyDb) in
  well_formed (DeleteTweet (Oid 0)) = true ∧
  entity_owner (DeleteTweet (Oid 0)) db = Some (Some 2) ∧
  serve (Some 1) (DeleteTweet (Oid 0)) db = (inl (refusal (DeleteTweet (Oid 0))), db) ∧
  entity_owner (DeleteTweet (Oid 5)) db = None ∧
  serve None (DeleteTweet (Oid 5)) db = (inl (not_found (DeleteTweet (Oid 5))), db).
Proof.
  intros db.
  pose proof (guarded_mutation None 1 (DeleteTweet (Oid 0)) db eq_refl) as [_ H0].
  pose proof (guarded_mutation None 1 (DeleteTweet (Oid 5)) db eq_refl) as [H5 _].
  assert (E0 : entity_owner (DeleteTweet (Oid 0)) db = Some (Some 2)) by (by vm_compute).
  assert (E5 : entity_owner (DeleteTweet (Oid 5)) db = None) by (by vm_compute).
  split; [reflexivity|]. split; [exact E0|].
  split; [apply (H0 2 E0); lia|]. split; [exact E5|]. apply (H5 E5).
Defined.

(** C4 as first stated fails when validation comes first: an update with
    empty content of a tweet that is not stored is answered 400, not
    NotFound. *)
Lemma update_without_content_is_not_NotFound :
  entity_owner (UpdateTweet (Some "") (Oid 7)) emptyDb = None ∧
  serve (Some 1) (UpdateTweet (Some "") (Oid 7)) emptyDb =
    (inl (ApiError 400 "Content is required"), emptyDb) ∧
  ¬ (∃ e, outcome (serve (Some 1) (UpdateTweet (Some "") (Oid 7)) emptyDb) = inl e ∧
          is_NotFound e).
Proof.
  split; [by vm_compute|]. split; [by vm_compute|].
  intros (e & He & msg & Hmsg). vm_compute in He. simplify_eq.
Qed.
End ownership.

(* ===================================================================== *)
(** ** Playlists                                                          *)
(* ===================================================================== *)

Section playlists.
Import PlaylistController.

Lemma membership_absent v l : v ∉ l → membership v l = 0.
Proof.
  unfold membership. induction l as [|x l IH]; intros Hin; [done|].
  apply not_elem_of_cons in Hin as [Hne Hin].
  rewrite filter_cons_False by congruence. by apply IH.
Qed.

Lemma membership_present v l : NoDup l → v ∈ l → membership v l = 1.
Proof.
  induction 1 as [|x l Hx Hnd IH]; intros Hin; [by apply elem_of_nil in Hin|].
  unfold membership in *. rewrite filter_cons. case_decide as Hxv.
  - subst x. simpl. f_equal. by apply membership_absent.
  - apply elem_of_cons in Hin as [Heq|Hin]; [congruence|]. by apply IH.
Qed.

Lemma membership_addToSet v l :
  NoDup l → membership v (addToSet v l) = 1.
Proof.
  unfold addToSet. intros Hnd. case_bool_decide as Hin.
  - by apply membership_present.
  - unfold membership. rewrite filter_app, length_app.
    fold (membership v l). rewrite membership_absent by done.
    by rewrite filter_cons_True, filter_nil.
Qed.

Lemma addToSet_idemp v l : addToSet v (addToSet v l) = addToSet v l.
Proof.
  unfold addToSet. destruct (bool_decide (v ∈ l)) eqn:Hin.
  - by rewrite Hin.
  - rewrite bool_decide_eq_true_2; [done|]. apply elem_of_app. right. left.
Qed.

Lemma NoDup_addToSet v l : NoDup l → NoDup (addToSet v l).
Proof.
  unfold addToSet. intros Hnd. case_bool_decide as Hin; [done|].
  apply NoDup_app. split; [done|]. split; [|apply NoDup_singleton].
  intros x Hx ->%list_elem_of_singleton. done.
Qed.

Lemma addVideoToPlaylist_by_owner u p v pl db :
  playlists db !! p = Some pl → Playlist.owner pl = Some u →
  is_Some (videos db !! v) →
  after (addVideoToPlaylist (Some u) (Oid p) (Oid v) db) = added p v pl db ∧
  ∃ resp, outcome (addVideoToPlaylist (Some u) (Oid p) (Oid v) db) = inr resp ∧
          status resp = 200.
Proof.
  intros Hp Ho [vd Hv].
  unfold addVideoToPlaylist, findById, findByIdAndUpdate, owner_mismatch, bind, ret.
  simpl. rewrite Hp, Hv. simpl. rewrite Ho. simpl.
  rewrite bool_decide_eq_true_2 by done. simpl. rewrite Hp. simpl.
  split; [done|]. by eexists.
Qed.

(** C6.  For a stored playlist, which holds a set of video references,
    and a stored video: when the owner adds the video twice, the playlist
    ends with exactly one entry for it, and the second request changes
    nothing. *)
Theorem add_video_twice (u p v : nat) (pl : Playlist.doc) (db : Db) :
  playlists db !! p = Some pl →
  Playlist.owner pl = Some u →
  is_Some (videos db !! v) →
  NoDup (Playlist.videos pl) →
  let db1 := after (addVideoToPlaylist (Some u) (Oid p) (Oid v) db) in
  let db2 := after (addVideoToPlaylist (Some u) (Oid p) (Oid v) db1) in
  ∃ pl2, playlists db2 !! p = Some pl2 ∧
         Playlist.videos pl2 = addToSet v (Playlist.videos pl) ∧
         membership v (Playlist.videos pl2) = 1 ∧
         playlists db2 = playlists db1.
Proof.
  intros Hp Ho Hv Hnd db1 db2.
  destruct (addVideoToPlaylist_by_owner u p v pl db Hp Ho Hv) as [H1 _].
  fold db1 in H1.
  set (pl1 := Playlist.mk (Playlist.name pl) (Playlist.description pl)
                (addToSet v (Playlist.videos pl)) (Playlist.owner pl)).
  assert (Hp1 : playlists db1 !! p = Some pl1).
  { rewrite H1. simpl. apply lookup_insert_eq. }
  assert (Hv1 : is_Some (videos db1 !! v)) by (by rewrite H1).
  destruct (addVideoToPlaylist_by_owner u p v pl1 db1 Hp1 Ho Hv1) as [H2 _].
  fold db2 in H2.
  exists pl1. rewrite H2. simpl. rewrite addToSet_idemp.
  split; [apply lookup_insert_eq|]. split; [done|].
  split; [by apply membership_addToSet|].
  rewrite H1. simpl. by rewrite insert_insert_eq.
Qed.

Lemma add_video_twice_witness :
  let pl := Playlist.mk "mix" "songs" [4; 9] (Some 1) in
  let vd := Video.mk 2 "t" "d" "f" "th" 0 0 true 0 in
  let db := mkDb ∅ {[9 := vd; 3 := vd]} ∅ ∅ ∅ {[0 := pl]} ∅ 0 in
  playlists db !! 0 = Some pl ∧ Playlist.owner pl = Some 1 ∧
  is_Some (videos db !! 3) ∧ NoDup (Playlist.videos pl) ∧
  let db1 := after (addVideoToPlaylist (Some 1) (Oid 0) (Oid 3) db) in
  let db2 := after (addVideoToPlaylist (Some 1) (Oid 0) (Oid 3) db1) in
  ∃ pl2, playlists db2 !! 0 = Some pl2 ∧
         Playlist.videos pl2 = addToSet 3 (Playlist.videos pl) ∧
         membership 3 (Playlist.videos pl2) = 1 ∧
         playlists db2 = playlists db1.
Proof.
  intros pl vd db.
  assert (H1 : playlists db !! 0 = Some pl) by reflexivity.
  assert (H2 : Playlist.owner pl = Some 1) by reflexivity.
  assert (H3 : is_Some (videos db !! 3)) by (by exists vd).
  assert (H4 : NoDup (Playlist.videos pl))
    by (apply (bool_decide_unpack (NoDup [4; 9])); by vm_compute).
  split; [exact H1|]. split; [exact H2|]. split; [exact H3|]. split; [exact H4|].
  exact (add_video_twice 1 0 3 pl db H1 H2 H3 H4).
Defined.
End playlists.

(** Every playlist handler keeps the playlists duplicate-free; a playlist
    is created with no video. *)
Section playlist_sets.
Import PlaylistController.

Lemma NoDup_pull v l : NoDup l → NoDup (pull v l).
Proof. apply NoDup_filter. Qed.

Ltac run_playlist_handler :=
  unfold createPlaylist, updatePlaylist, deletePlaylist, addVideoToPlaylist,
    removeVideoFromPlaylist, findById, findByIdAndUpdate, findByIdAndDelete,
    create, owner_mismatch, bind, throw, ret, respond, after;
  repeat (simpl; try done; case_match; simplify_eq/=; try done).

Lemma createPlaylist_keeps_sets user name description db :
  playlists_are_sets db →
  playlists_are_sets (after (createPlaylist user name description db)).
Proof.
  intros Hinv. run_playlist_handler.
  apply map_Forall_insert_2; [constructor|done].
Qed.

Lemma updatePlaylist_keeps_sets user name description playlistId db :
  playlists_are_sets db →
  playlists_are_sets (after (updatePlaylist user name description playlistId db)).
Proof.
  intros Hinv. run_playlist_handler.
  apply map_Forall_insert_2; [|done]. simpl. by eapply (Hinv _ _).
Qed.

Lemma deletePlaylist_keeps_sets user playlistId db :
  playlists_are_sets db →
  playlists_are_sets (after (deletePlaylist user playlistId db)).
Proof.
  intros Hinv. run_playlist_handler. by apply map_Forall_delete.
Qed.

Lemma addVideoToPlaylist_keeps_sets user playlistId videoId db :
  playlists_are_sets db →
  playlists_are_sets (after (addVideoToPlaylist user playlistId videoId db)).
Proof.
  intros Hinv. run_playlist_handler.
  apply map_Forall_insert_2; [|done]. simpl. apply NoDup_addToSet. by eapply (Hinv _ _).
Qed.

Lemma removeVideoFromPlaylist_keeps_sets user playlistId videoId db :
  playlists_are_sets db →
  playlists_are_sets (after (removeVideoFromPlaylist user playlistId videoId db)).
Proof.
  intros Hinv. run_playlist_handler.
  apply map_Forall_insert_2; [|done]. simpl. apply NoDup_pull. by eapply (Hinv _ _).
Qed.
End playlist_sets.

(* ===================================================================== *)
(** ** Aggregation stages                                                 *)
(* ===================================================================== *)

Section stages.
Context {A : Type} (key : A → nat).

Lemma insert_desc_perm x l : insert_desc key x l ≡ₚ x :: l.
Proof.
induction l as [|y l IH]; simpl; [done|].
case_bool_decide; [done|]. rewrite IH. apply Permutation_swap.
Qed.

Lemma sort_desc_perm l : sort_desc key l ≡ₚ l.
Proof.
induction l as [|x l IH]; simpl; [done|].
by rewrite insert_desc_perm, IH.
Qed.

Lemma length_sort_desc l : length (sort_desc key l) = length l.
Proof. by rewrite sort_desc_perm. Qed.

Lemma Forall_sort_desc (P : A → Prop) l : Forall P l → Forall P (sort_desc key l).
Proof. by rewrite sort_desc_perm. Qed.

(** The stage does sort: newest first. *)
Lemma insert_desc_sorted x l :
StronglySorted (λ a b, key b ≤ key a) l →
StronglySorted (λ a b, key b ≤ key a) (insert_desc key x l).
Proof.
induction 1 as [|y l Hl IH Hy]; simpl; [repeat constructor|].
case_bool_decide as Hlt.
- constructor; [by constructor|]. constructor; [lia|].
  eapply Forall_impl; [exact Hy|]. simpl. intros z Hz. lia.
- constructor; [done|]. rewrite insert_desc_perm. constructor; [lia|done].
Qed.

Lemma sort_desc_sorted l : StronglySorted (λ a b, key b ≤ key a) (sort_desc key l).
Proof.
induction l as [|x l IH]; simpl; [constructor|]. by apply insert_desc_sorted.
Qed.
End stages.

Lemma null_not_in_references (ls : list (nat * Like.doc)) :
  in_array BNull (omap (λ l : nat * Like.doc, BOid <$> Like.likedBy l.2) ls) = false.
Proof.
  apply bool_decide_eq_false. intros (l & _ & Hl)%list_elem_of_omap.
  destruct (Like.likedBy l.2); discriminate.
Qed.

(* ===================================================================== *)
(** ** Listings                                                           *)
(* ===================================================================== *)

Section comments.
Import CommentController.

Lemma length_commentsAggregate user v db :
length (commentsAggregate user v db) = comment_count v db.
Proof.
unfold commentsAggregate. by rewrite length_sort_desc, length_fmap.
Qed.

(** Every run of [getVideoComments] ends in an exception: the malformed
  id and the missing video are refused first, and a stored video gets as
  far as the call of [ObjectId] without [new]. *)
Lemma getVideoComments_eq (user : option nat) (videoId : param)
  (page limit : option nat) (db : Db) :
getVideoComments user videoId page limit db =
  (inl match videoId with
       | Malformed s => CastError s
       | Oid v =>
           if videos db !! v is Some _
           then TypeError "Class constructor ObjectId cannot be invoked without 'new'"
           else ApiError 404 "Video not found"
       end, db).
Proof.
unfold getVideoComments, findById, bind. destruct videoId as [v|s]; simpl; [|done].
by destruct (videos db !! v).
Qed.

(** The stages that the handler builds and does not reach: paginated, the
  aggregation of a video with [N] comments would give, for page [p] and
  limit [l], the [min l (N - (p-1)*l)] comments that follow the first
  [(p-1)*l], and report [N] as the total. *)
Lemma page_of_the_stages (user : option nat) (v p l : nat) (db : Db) :
let pg := aggregatePaginate (commentsAggregate user v db) p l in
docs pg = take l (drop ((p - 1) * l) (commentsAggregate user v db)) ∧
length (docs pg) = l `min` (comment_count v db - (p - 1) * l) ∧
totalDocs pg = comment_count v db.
Proof.
simpl. split; [done|].
by rewrite length_take, length_drop, !length_commentsAggregate.
Qed.

(** C7.  The paginated comment listing returns no page.  On a stored
  video, whatever the caller, the page and the limit asked for, and
  however many comments the video has, [getVideoComments] raises the
  [TypeError] of [mongoose.Types.ObjectId] called without [new] and
  leaves the database as it was; on any other id it is refused before.
  So no request is answered with comments. *)
Theorem comment_listing_raises_on_a_stored_video (user : option nat) (v : nat)
  (page limit : option nat) (db : Db) :
is_Some (videos db !! v) →
getVideoComments user (Oid v) page limit db =
  (inl (TypeError "Class constructor ObjectId cannot be invoked without 'new'"), db) ∧
(∀ videoId r, outcome (getVideoComments user videoId page limit db) ≠ inr r).
Proof.
intros [vd Hv]. split.
- by rewrite getVideoComments_eq, Hv.
- intros videoId r. by rewrite getVideoComments_eq.
Qed.
End comments.

Section comments2.
Import CommentController.

(** With 15 comments stored on video 0, neither page 1 nor page 2 of
  limit 10 is returned. *)
Lemma comment_listing_raises_on_a_stored_video_witness :
let db := db_with_comments 15 in
is_Some (videos db !! 0) ∧
comment_count 0 db = 15 ∧
getVideoComments None (Oid 0) (Some 1) (Some 10) db =
  (inl (TypeError "Class constructor ObjectId cannot be invoked without 'new'"), db) ∧
getVideoComments None (Oid 0) (Some 2) (Some 10) db =
  (inl (TypeError "Class constructor ObjectId cannot be invoked without 'new'"), db).
Proof.
intros db.
assert (Hv : is_Some (videos db !! 0)) by (by exists video0).
split; [exact Hv|]. split; [by vm_compute|]. split.
- exact (proj1 (comment_listing_raises_on_a_stored_video None 0 (Some 1) (Some 10) db Hv)).
- exact (proj1 (comment_listing_raises_on_a_stored_video None 0 (Some 2) (Some 10) db Hv)).
Defined.

Lemma isLiked_commentView x :
field "isLiked" (commentView_json x) = Some (JBool (cv_isLiked x)).
Proof. unfold commentView_json. by destruct (cv_owner x). Qed.

Lemma commentsAggregate_unauthenticated v db :
Forall (λ x, cv_isLiked x = false) (commentsAggregate None v db).
Proof.
unfold commentsAggregate. apply Forall_sort_desc, Forall_fmap, Forall_forall.
intros c _. simpl. apply null_not_in_references.
Qed.
End comments2.

Section tweets2.
Import TweetController.

Lemma isLiked_tweetView x :
field "isLiked" (tweetView_json x) = Some (JBool (tv_isLiked x)).
Proof. unfold tweetView_json. by destruct (tv_ownerDetails x). Qed.

Lemma userTweetsAggregate_unauthenticated u db :
Forall (λ x, tv_isLiked x = false) (userTweetsAggregate None u db).
Proof.
unfold userTweetsAggregate. apply Forall_sort_desc, Forall_fmap, Forall_forall.
intros t _. simpl. by rewrite null_not_in_references.
Qed.
End tweets2.

(** C8.  With no identity attached to the request, the listing of a
    user's tweets answers 200 with the aggregated tweets, and every item
    carries [isLiked: false]: the test of [null] against the [likedBy]
    references raises nothing.  The aggregation of the comment listing
    gives [isLiked] false on every item in the same way, but the handler
    does not get to run it: on a stored video [getVideoComments] raises
    the [TypeError] of [ObjectId] called without [new], for a caller with
    an identity as for one without, so the comment listing does not
    succeed. *)
Theorem unauthenticated_listings (userId v : nat) (page limit : option nat) (db : Db) :
  is_Some (videos db !! v) →
  let items := TweetController.tweetView_json <$>
                 TweetController.userTweetsAggregate None userId db in
  TweetController.getUserTweets None (Oid userId) db =
    (inr (mkResponse 200 []
            (new_ApiResponse 200 (JArr items)
               (Some "Tweets fetched successfully") true)), db) ∧
  Forall (λ item, field "isLiked" item = Some (JBool false)) items ∧
  Forall (λ x, CommentController.cv_isLiked x = false)
         (CommentController.commentsAggregate None v db) ∧
  (∀ caller,
     CommentController.getVideoComments caller (Oid v) page limit db =
       (inl (TypeError "Class constructor ObjectId cannot be invoked without 'new'"), db)).
Proof.
  intros [vd Hv] items. split; [reflexivity|]. split; [|split].
  - apply Forall_fmap.
    eapply Forall_impl; [apply userTweetsAggregate_unauthenticated|].
    intros x Hx. unfold compose. by rewrite isLiked_tweetView, Hx.
  - apply commentsAggregate_unauthenticated.
  - intros caller. by rewrite getVideoComments_eq, Hv.
Qed.

(** User 2 has written a tweet, which user 3 likes; video 0 has three
    comments.  Asked without identity, the tweet listing has its one item,
    unliked, and the comment listing raises. *)
Lemma unauthenticated_listings_witness :
  let db := after (toggle (Some 3) (OnTweet 0)
                     (after (TweetController.createTweet (Some 2) (Some "hello")
                               (db_with_comments 3)))) in
  is_Some (videos db !! 0) ∧
  length (TweetController.userTweetsAggregate None 2 db) = 1 ∧
  (∃ items,
     TweetController.getUserTweets None (Oid 2) db =
       (inr (mkResponse 200 []
               (new_ApiResponse 200 (JArr items)
                  (Some "Tweets fetched successfully") true)), db) ∧
     Forall (λ item, field "isLiked" item = Some (JBool false)) items) ∧
  CommentController.getVideoComments None (Oid 0) None None db =
    (inl (TypeError "Class constructor ObjectId cannot be invoked without 'new'"), db).
Proof.
  intros db.
  assert (Hv : is_Some (videos db !! 0)) by (by exists video0).
  destruct (unauthenticated_listings 2 0 None None db Hv) as (Htw & Hfalse & _ & Hcm).
  split; [exact Hv|]. split; [by vm_compute|]. split.
  - eexists. split; [exact Htw|exact Hfalse].
  - exact (Hcm None).
Defined.

(* ===================================================================== *)
(** ** Likes on comments and tweets                                       *)
(* ===================================================================== *)

Section invisible_likes.
Implicit Types (user caller : option nat) (t : target) (db : Db).

Lemma toggle_preserves_likes_from_toggles user t db :
likes_from_toggles db → likes_from_toggles (after (toggle user t db)).
Proof.
intros Hinv. rewrite after_toggle. unfold toggled, likes_from_toggles.
destruct (head (find_docs _ (likes db))) as [[id d]|]; simpl.
- by apply map_Forall_delete.
- apply map_Forall_insert_2; [|done]. by eexists _, _, _.
Qed.

Lemma likes_from_toggles_empty : likes_from_toggles emptyDb.
Proof. apply map_Forall_empty. Qed.

Lemma run_toggles_likes_from_toggles reqs db :
likes_from_toggles db → likes_from_toggles (run_toggles reqs db).
Proof.
revert db. induction reqs as [|r reqs IH]; intros db Hinv; simpl; [done|].
by apply IH, toggle_preserves_likes_from_toggles.
Qed.

Lemma toggle_made_comment l c :
toggle_made l → Like.comment l = Some c → Like.likedBy l = None.
Proof. intros (user & [v|c'|x] & now & ->); simpl; congruence. Qed.

Lemma toggle_made_tweet l x :
toggle_made l → Like.tweet l = Some x → Like.likedBy l = None.
Proof. intros (user & [v|c'|x'] & now & ->); simpl; congruence. Qed.

Lemma toggle_made_pair user t l :
toggle_made l → on_comment_or_tweet t = true → pair_query user t l = true →
Like.likedBy l = None.
Proof.
intros Hl Ht Hq. destruct t as [v|c|x]; [done| |]; simpl in Hq;
  apply andb_true_iff in Hq as [Hq _]; apply bool_decide_eq_true in Hq.
- by eapply toggle_made_comment.
- by eapply toggle_made_tweet.
Qed.

Lemma no_references_in (v : bson) (ls : list (nat * Like.doc)) :
Forall (λ l, Like.likedBy l.2 = None) ls →
in_array v (omap (λ l : nat * Like.doc, BOid <$> Like.likedBy l.2) ls) = false.
Proof.
intros Hall. apply bool_decide_eq_false. intros (l & Hin & Hl)%list_elem_of_omap.
rewrite Forall_forall in Hall. by rewrite (Hall l Hin) in Hl.
Qed.

Lemma commentsAggregate_never_liked caller v db :
likes_from_toggles db →
Forall (λ x, CommentController.cv_isLiked x = false)
       (CommentController.commentsAggregate caller v db).
Proof.
intros Hinv. unfold CommentController.commentsAggregate.
apply Forall_sort_desc, Forall_fmap, Forall_forall. intros c _. simpl.
apply no_references_in, Forall_forall. intros [id l] Hin.
apply elem_of_find_docs in Hin as [Hid Hq]. apply bool_decide_eq_true in Hq.
eapply toggle_made_comment; [|done]. by eapply (Hinv id).
Qed.

Lemma userTweetsAggregate_never_liked caller w db :
likes_from_toggles db →
Forall (λ x, TweetController.tv_isLiked x = false)
       (TweetController.userTweetsAggregate caller w db).
Proof.
intros Hinv. unfold TweetController.userTweetsAggregate.
apply Forall_sort_desc, Forall_fmap, Forall_forall. intros c _. simpl.
rewrite no_references_in; [done|]. apply Forall_forall. intros [id l] Hin.
apply elem_of_find_docs in Hin as [Hid Hq]. apply bool_decide_eq_true in Hq.
eapply toggle_made_tweet; [|done]. by eapply (Hinv id).
Qed.

Lemma likedVideosAggregate_toggled caller user t db :
likes_from_toggles db → on_comment_or_tweet t = true →
LikeController.likedVideosAggregate caller (toggled user t db) =
LikeController.likedVideosAggregate caller db.
Proof.
intros Hinv Ht. unfold LikeController.likedVideosAggregate, toggled.
destruct (head (find_docs _ (likes db))) as [[id d]|] eqn:Hhd; simpl.
- apply head_find_docs_Some in Hhd as [Hid Hq].
  rewrite (find_docs_delete_other _ _ _ _ Hid); [done|].
  destruct caller as [u'|]; [|done]. apply bool_decide_eq_false.
  rewrite (toggle_made_pair user t d); [done|by eapply (Hinv id)|done..].
- rewrite find_docs_insert_other; [done|apply fresh_not_in|].
  destruct caller as [u'|]; [|done]. apply bool_decide_eq_false.
  by destruct t.
Qed.
End invisible_likes.

(** C9.  Start from likes that the toggles have stored, and let user [u]
    toggle a like on a comment or on a tweet.  A record created by the
    toggle holds [u] under [commentedBy] (respectively [tweetedBy]) and has
    no [likedBy].  Afterwards [isLiked] is false on every item of the
    comment listing and of the tweet listing, for [u] as for every other
    caller, and the result of [getLikedVideos] is what it was before the
    toggle. *)
Theorem comment_and_tweet_likes_are_invisible (u : nat) (t : target) (db : Db) :
  likes_from_toggles db →
  on_comment_or_tweet t = true →
  let db' := after (toggle (Some u) t db) in
  (like_count (Some u) t db = 0 →
     likes db' = <[fresh (dom (likes db)) := like_doc (Some u) t (clock db)]> (likes db)) ∧
  Like.likedBy (like_doc (Some u) t (clock db)) = None ∧
  match t with
  | OnVideo _ => True
  | OnComment _ => Like.commentedBy (like_doc (Some u) t (clock db)) = Some u
  | OnTweet _ => Like.tweetedBy (like_doc (Some u) t (clock db)) = Some u
  end ∧
  (∀ caller v, Forall (λ x, CommentController.cv_isLiked x = false)
                 (CommentController.commentsAggregate caller v db')) ∧
  (∀ caller w, Forall (λ x, TweetController.tv_isLiked x = false)
                 (TweetController.userTweetsAggregate caller w db')) ∧
  (∀ caller, LikeController.likedVideosAggregate caller db' =
             LikeController.likedVideosAggregate caller db).
Proof.
  intros Hinv Ht db'.
  assert (Hinv' : likes_from_toggles db')
    by (by apply toggle_preserves_likes_from_toggles).
  split; [|split; [by destruct t|split; [by destruct t|]]].
  - intros Hzero. subst db'. rewrite after_toggle. unfold toggled.
    apply head_find_docs_None in Hzero. by rewrite Hzero.
  - split; [|split].
    + intros caller v. by apply commentsAggregate_never_liked.
    + intros caller w. by apply userTweetsAggregate_never_liked.
    + intros caller. subst db'. rewrite after_toggle.
      by apply likedVideosAggregate_toggled.
Qed.

Lemma comment_and_tweet_likes_are_invisible_witness :
  let db := db_with_comments 2 in
  let db' := after (toggle (Some 2) (OnComment 0) db) in
  likes_from_toggles db ∧ on_comment_or_tweet (OnComment 0) = true ∧
  like_count (Some 2) (OnComment 0) db = 0 ∧
  likes db' = <[fresh (dom (likes db)) := like_doc (Some 2) (OnComment 0) (clock db)]>
                (likes db) ∧
  Forall (λ x, CommentController.cv_isLiked x = false)
         (CommentController.commentsAggregate (Some 2) 0 db') ∧
  LikeController.likedVideosAggregate (Some 2) db' =
    LikeController.likedVideosAggregate (Some 2) db.
Proof.
  intros db db'.
  assert (Hinv : likes_from_toggles db) by apply map_Forall_empty.
  assert (Hzero : like_count (Some 2) (OnComment 0) db = 0) by (by vm_compute).
  destruct (comment_and_tweet_likes_are_invisible 2 (OnComment 0) db Hinv eq_refl)
    as (Hnew & _ & _ & Hcomments & _ & Hvideos).
  split; [exact Hinv|]. split; [reflexivity|]. split; [exact Hzero|].
  split; [exact (Hnew Hzero)|]. split; [exact (Hcomments (Some 2) 0)|].
  exact (Hvideos (Some 2)).
Defined.

(** The like of user 2 on comment 0 is counted, and still not reported to
    user 2 as a like. *)
Example liked_comment_is_reported_unliked :
  let db' := after (toggle (Some 2) (OnComment 0) (db_with_comments 1)) in
  (λ x, (CommentController.cv_id x, CommentController.cv_likesCount x,
         CommentController.cv_isLiked x))
    <$> CommentController.commentsAggregate (Some 2) 0 db' = [(0, 1, false)].
Proof. by vm_compute. Qed.

(* ===================================================================== *)
(** ** Login                                                              *)
(* ===================================================================== *)

Section login_facts.
Variable bcrypt_compare : string → string → bool.
Variable normalise : string → string.

Lemma isPasswordCorrect_undefined (this : User.doc) (p : string) (db : Db) :
isPasswordCorrect bcrypt_compare this (Some p) db = (inr undefined, db).
Proof. reflexivity. Qed.

Lemma isPasswordCorrect_never_a_boolean (this : User.doc) (password : option string)
  (db : Db) (b : bool) :
outcome (isPasswordCorrect bcrypt_compare this password db) ≠ inr (JSBool b).
Proof. by destruct password. Qed.

Lemma loginUser_never_succeeds (req : LoginBody) (db : Db) :
∃ e, loginUser bcrypt_compare normalise req db = (inl e, db).
Proof.
unfold loginUser, findOne, bind, throw. cbv zeta.
destruct (negb (truthy (lb_userName req)) || negb (truthy (lb_email req)));
  [by eexists|]; simpl.
destruct (head (find_docs _ (users db))) as [[id user]|]; [|by eexists].
destruct (lb_password req); by eexists.
Qed.

(** C10.  [isPasswordCorrect] evaluates to [undefined] on every password,
  the result of the comparison being awaited and dropped, and no login
  request at all is answered with a success.  A request with a password
  that names a stored user, by a user name or an email that the schema
  normalises to the stored one, is answered Unauthorized (401, "Invalid
  user credentials") whatever the comparison says of the password, when
  it carries both a user name and an email.  When it carries one of the
  two only, the guard [!userName || !email] has answered 400 ("UserName or
  Email Required") before the user is looked up. *)
Theorem login_naming_a_stored_user (req : LoginBody) (id : nat) (user : User.doc)
  (p : string) (db : Db) :
lb_password req = Some p →
users db !! id = Some user →
names normalise req user →
(∀ this p' db', isPasswordCorrect bcrypt_compare this (Some p') db' = (inr undefined, db')) ∧
loginUser bcrypt_compare normalise req db =
  (inl (if truthy (lb_userName req) && truthy (lb_email req)
        then ApiError 401 "Invalid user credentials"
        else ApiError 400 "UserName or Email Required"), db) ∧
(∀ req' db', ∃ e, loginUser bcrypt_compare normalise req' db' = (inl e, db')).
Proof.
intros Hpw Huser Hnames.
split; [done|]. split; [|apply loginUser_never_succeeds].
unfold loginUser, findOne, bind, throw. cbv zeta.
destruct (truthy (lb_userName req)); [|done].
destruct (truthy (lb_email req)); [|done].
rewrite Hpw. simpl.
destruct (head (find_docs _ (users db))) as [[id' user']|] eqn:Hhd; [done|].
exfalso. apply head_find_docs_None in Hhd.
unfold countDocuments in Hhd. apply nil_length_inv in Hhd.
assert (Hin : (id, user) ∈ @nil (nat * User.doc)); [|by apply elem_of_nil in Hin].
rewrite <-Hhd. apply elem_of_find_docs. split; [done|].
apply orb_true_iff. destruct Hnames as [Hn|Hn]; [left|right];
  by apply bool_decide_eq_true.
Qed.
End login_facts.

(** Bob is stored, and the password sent is the one whose hash is stored.
    Named by user name alone, the request is answered 400; named by both,
    in another spelling, it is answered 401. *)
Lemma login_naming_a_stored_user_witness :
  let by_name := mkLoginBody None (Some "bob") (Some "secret") in
  let by_both := mkLoginBody (Some "Bob@Example.com") (Some " BOB ") (Some "secret") in
  users db_with_bob !! 0 = Some bob ∧
  toy_compare "secret" (User.password bob) = true ∧
  names ascii_normalise by_name bob ∧
  names ascii_normalise by_both bob ∧
  loginUser toy_compare ascii_normalise by_name db_with_bob =
    (inl (ApiError 400 "UserName or Email Required"), db_with_bob) ∧
  loginUser toy_compare ascii_normalise by_both db_with_bob =
    (inl (ApiError 401 "Invalid user credentials"), db_with_bob).
Proof.
  intros by_name by_both.
  assert (Hn : names ascii_normalise by_name bob) by (left; reflexivity).
  assert (Hb : names ascii_normalise by_both bob) by (left; reflexivity).
  split; [reflexivity|]. split; [reflexivity|]. split; [exact Hn|]. split; [exact Hb|].
  split.
  - exact (proj1 (proj2 (login_naming_a_stored_user toy_compare ascii_normalise by_name
                           0 bob "secret" db_with_bob eq_refl eq_refl Hn))).
  - exact (proj1 (proj2 (login_naming_a_stored_user toy_compare ascii_normalise by_both
                           0 bob "secret" db_with_bob eq_refl eq_refl Hb))).
Defined.

(* ===================================================================== *)
(** ** Further properties of the like controller                          *)
(* ===================================================================== *)

Section more_likes.
Import LikeController.
Implicit Types (user : option nat) (t : target) (db : Db).

(** X1.  A toggle validates its id before anything else: a malformed id is
    answered 400 with the message of its entity and nothing is written;
    a well-formed id is always answered 200, whether or not the target it
    names is stored. *)
Theorem toggle_validates_then_answers user (id : param) db :
  match id with
  | Malformed s =>
      toggleVideoLike user id db = (inl (ApiError 400 "Invalid video ID"), db) ∧
      toggleCommentLike user id db = (inl (ApiError 400 "Invalid comment ID"), db) ∧
      toggleTweetLike user id db = (inl (ApiError 400 "Invalid tweet ID"), db)
  | Oid o =>
      Forall (λ run : M Response,
                ∃ resp, outcome (run db) = inr resp ∧ status resp = 200 ∧
                        statusCode (body resp) = 200)
             [toggleVideoLike user id; toggleCommentLike user id; toggleTweetLike user id]
  end.
Proof.
  destruct id as [o|s]; [|done].
  repeat constructor.
  - eexists. split; [exact (outcome_toggle user (OnVideo o) db)|done].
  - eexists. split; [exact (outcome_toggle user (OnComment o) db)|done].
  - eexists. split; [exact (outcome_toggle user (OnTweet o) db)|done].
Qed.

Lemma toggle_made_pair_inv user t l :
  toggle_made l → pair_query user t l = true → ∃ now, l = like_doc user t now.
Proof.
  intros (user0 & t0 & now & ->) Hq.
  apply pair_query_like_doc_inv in Hq as [-> ->]. by exists now.
Qed.

(** X2.  On likes stored by the toggles, a toggle of one pair leaves the
    number of like records of every other pair as it was; and a toggle
    never touches users, videos, tweets, comments, playlists or
    subscriptions. *)
Theorem toggle_leaves_the_rest user user' t t' db :
  likes_from_toggles db →
  (user', t') ≠ (user, t) →
  let db' := after (toggle user t db) in
  like_count user' t' db' = like_count user' t' db ∧
  users db' = users db ∧ videos db' = videos db ∧ tweets db' = tweets db ∧
  comments db' = comments db ∧ playlists db' = playlists db ∧
  subscriptions db' = subscriptions db.
Proof.
  intros Hinv Hne db'. subst db'. rewrite after_toggle. unfold toggled, like_count.
  destruct (head (find_docs _ (likes db))) as [[id d]|] eqn:Hhd; simpl.
  - split; [|done]. apply head_find_docs_Some in Hhd as [Hid Hq].
    rewrite (countDocuments_delete (pair_query user' t') _ _ _ Hid).
    destruct (pair_query user' t' d) eqn:Hq'; [|done].
    destruct (toggle_made_pair_inv user t d (Hinv _ _ Hid) Hq) as [now ->].
    apply pair_query_like_doc_inv in Hq' as [-> ->]. done.
  - split; [|done].
    rewrite countDocuments_insert by apply fresh_not_in.
    destruct (pair_query user' t' _) eqn:Hq'; [|done].
    apply pair_query_like_doc_inv in Hq' as [-> ->]. done.
Qed.

Lemma toggle_leaves_the_rest_witness :
  let db := run_toggles [(Some 1, OnVideo 5); (Some 2, OnTweet 5)] emptyDb in
  likes_from_toggles db ∧ (Some 2, OnTweet 5) ≠ (Some 1, OnVideo 5) ∧
  like_count (Some 2) (OnTweet 5) (after (toggle (Some 1) (OnVideo 5) db)) =
    like_count (Some 2) (OnTweet 5) db.
Proof.
  intros db.
  assert (Hinv : likes_from_toggles db)
    by (apply run_toggles_likes_from_toggles, likes_from_toggles_empty).
  assert (Hne : (Some 2, OnTweet 5) ≠ (Some 1, OnVideo 5)) by discriminate.
  split; [exact Hinv|]. split; [exact Hne|].
  exact (proj1 (toggle_leaves_the_rest (Some 1) (Some 2) (OnVideo 5) (OnTweet 5)
                  db Hinv Hne)).
Defined.

(** X3.  Toggles served one after the other, starting with no like stored,
    never leave two like records for one pair: the invariant of the data
    model holds without any uniqueness constraint as long as requests do
    not interleave. *)
Theorem sequential_toggles_keep_one_like_per_pair
    (reqs : list (option nat * target)) user t :
  like_count user t (run_toggles reqs emptyDb) ≤ 1.
Proof. apply run_toggles_at_most_one, at_most_one_like_empty. Qed.

Lemma elem_of_likedVideosAggregate (u : nat) db (x : LikedVideo) :
  x ∈ likedVideosAggregate (Some u) db ↔
  ∃ id l o, likes db !! id = Some l ∧ Like.likedBy l = Some u ∧
            Like.video l = Some (lv_id x) ∧ lv_createdAt x = Like.createdAt l ∧
            videos db !! lv_id x = Some (lv_video x) ∧
            users db !! Video.owner (lv_video x) = Some o ∧
            lv_ownerFullName x = User.fullName o.
Proof.
  unfold likedVideosAggregate. rewrite sort_desc_perm. split.
  - intros ([id l] & Hx & Hl)%list_elem_of_bind.
    apply elem_of_find_docs in Hl as [Hid ?%bool_decide_eq_true].
    apply list_elem_of_bind in Hx as ([v vd] & Hx & Hv).
    apply list_elem_of_bind in Hx as ([o od] & Hx & Ho).
    apply list_elem_of_singleton in Hx as ->. simpl in *.
    unfold lookup_by_id in Hv, Ho.
    destruct (Like.video l) as [v'|] eqn:Hvid; [|by apply elem_of_nil in Hv].
    destruct (videos db !! v') as [vd'|] eqn:Hvd; [|by apply elem_of_nil in Hv].
    apply list_elem_of_singleton in Hv. injection Hv as -> ->.
    destruct (users db !! Video.owner vd') as [od'|] eqn:Hod;
      [|by apply elem_of_nil in Ho].
    apply list_elem_of_singleton in Ho. injection Ho as -> ->.
    by exists id, l, od'.
  - intros (id & l & o & Hid & Hby & Hvid & Hat & Hvd & Hod & Hname).
    apply list_elem_of_bind. exists (id, l). split.
    + apply list_elem_of_bind. exists (lv_id x, lv_video x). simpl. split.
      * apply list_elem_of_bind. exists (Video.owner (lv_video x), o). simpl. split.
        -- destruct x; simpl in *. subst. left.
        -- unfold lookup_by_id. rewrite Hod. left.
      * unfold lookup_by_id. rewrite Hvid, Hvd. left.
    + apply elem_of_find_docs. split; [done|]. by apply bool_decide_eq_true.
Qed.

(** X4.  [getLikedVideos] answers 200 with, newest like first, exactly the
    likes of the caller that refer to a stored video whose owner is a
    stored user; a like on anything else is passed over silently.  The
    database is not changed. *)
Theorem liked_videos_listing (u : nat) db :
  getLikedVideos (Some u) db =
    (inr (mkResponse 200 []
            (new_ApiResponse 200
               (JArr (likedVideo_json <$> likedVideosAggregate (Some u) db))
               (Some "Liked videos fetched successfully") true)), db) ∧
  StronglySorted (λ a b, lv_createdAt b ≤ lv_createdAt a)
                 (likedVideosAggregate (Some u) db) ∧
  ∀ x, x ∈ likedVideosAggregate (Some u) db ↔
       ∃ id l o, likes db !! id = Some l ∧ Like.likedBy l = Some u ∧
                 Like.video l = Some (lv_id x) ∧ lv_createdAt x = Like.createdAt l ∧
                 videos db !! lv_id x = Some (lv_video x) ∧
                 users db !! Video.owner (lv_video x) = Some o ∧
                 lv_ownerFullName x = User.fullName o.
Proof.
  split; [done|]. split; [apply sort_desc_sorted|].
  intros x. apply elem_of_likedVideosAggregate.
Qed.

(** X5.  When a user likes a stored video whose owner is stored, the video
    appears in that user's liked videos; when the user toggles again, it
    is gone. *)
Theorem liked_video_is_listed_until_unliked (u v : nat) (vd : Video.doc)
    (o : User.doc) db :
  like_count (Some u) (OnVideo v) db = 0 →
  videos db !! v = Some vd →
  users db !! Video.owner vd = Some o →
  let db1 := after (toggle (Some u) (OnVideo v) db) in
  let db2 := after (toggle (Some u) (OnVideo v) db1) in
  mkLikedVideo (clock db) v vd (User.fullName o) ∈ likedVideosAggregate (Some u) db1 ∧
  ∀ x, x ∈ likedVideosAggregate (Some u) db2 → lv_id x ≠ v.
Proof.
  intros Hzero Hv Ho db1 db2.
  assert (Hlikes1 : likes db1 =
            <[fresh (dom (likes db)) := like_doc (Some u) (OnVideo v) (clock db)]> (likes db)).
  { subst db1. rewrite after_toggle. unfold toggled.
    apply head_find_docs_None in Hzero. by rewrite Hzero. }
  assert (Hrest1 : videos db1 = videos db ∧ users db1 = users db).
  { subst db1. rewrite after_toggle. unfold toggled.
    by destruct (head _) as [[??]|]. }
  destruct Hrest1 as [Hv1 Hu1].
  split.
  - apply elem_of_likedVideosAggregate. simpl.
    exists (fresh (dom (likes db))), (like_doc (Some u) (OnVideo v) (clock db)), o.
    rewrite Hlikes1, Hv1, Hu1. split; [apply lookup_insert_eq|done].
  - intros x Hx Heq.
    apply elem_of_likedVideosAggregate in Hx as (id & l & _ & Hid & Hby & Hvid & _).
    assert (Hcount1 : like_count (Some u) (OnVideo v) db1 = 1).
    { subst db1. rewrite after_toggle, like_count_toggled. by rewrite Hzero. }
    assert (Hcount2 : like_count (Some u) (OnVideo v) db2 = 0).
    { subst db2. rewrite after_toggle, like_count_toggled. by rewrite Hcount1. }
    unfold like_count in Hcount2.
    rewrite (countDocuments_delete _ _ _ _ Hid) in Hcount2.
    simpl in Hcount2. rewrite Heq in Hvid.
    rewrite !bool_decide_eq_true_2 in Hcount2 by done. discriminate.
Qed.

Lemma liked_video_is_listed_until_unliked_witness :
  let vd := Video.mk 0 "title" "description" "file" "thumb" 0 0 true 0 in
  let db := mkDb {[0 := bob]} {[7 := vd]} ∅ ∅ ∅ ∅ ∅ 3 in
  like_count (Some 1) (OnVideo 7) db = 0 ∧ videos db !! 7 = Some vd ∧
  users db !! Video.owner vd = Some bob ∧
  mkLikedVideo 3 7 vd "Bob" ∈
    likedVideosAggregate (Some 1) (after (toggle (Some 1) (OnVideo 7) db)).
Proof.
  intros vd db.
  assert (H0 : like_count (Some 1) (OnVideo 7) db = 0) by (by vm_compute).
  split; [exact H0|]. split; [reflexivity|]. split; [reflexivity|].
  exact (proj1 (liked_video_is_listed_until_unliked 1 7 vd bob db H0 eq_refl eq_refl)).
Defined.
End more_likes.

(* ===================================================================== *)
(** ** Further properties of the dashboard                                *)
(* ===================================================================== *)

Section counting.
Context {D : Type}.
Implicit Types (c : gmap nat D) (p q r : D → bool).

Lemma countDocuments_empty q : countDocuments q (∅ : gmap nat D) = 0.
Proof. unfold countDocuments, find_docs. by rewrite map_filter_empty, map_to_list_empty. Qed.

Lemma countDocuments_split p q r c :
  (∀ d, (if r d then 1 else 0) = (if p d then 1 else 0) + (if q d then 1 else 0)) →
  countDocuments r c = countDocuments p c + countDocuments q c.
Proof.
  intros Hsplit. induction c as [|k d c Hk _ IH] using map_first_key_ind.
  - by rewrite !countDocuments_empty.
  - rewrite !countDocuments_insert by done. rewrite IH, Hsplit. lia.
Qed.

Lemma countDocuments_never q c : (∀ d, q d = false) → countDocuments q c = 0.
Proof.
  intros Hq. unfold countDocuments. rewrite find_docs_none; [done|]. auto.
Qed.

(** Counting reference by reference is counting the references to any of
    them, when no reference is listed twice. *)
Lemma sum_of_counts (f : D → option nat) (ks : list nat) c :
  NoDup ks →
  sum_list ((λ k, countDocuments (λ d, bool_decide (f d = Some k)) c) <$> ks) =
  countDocuments (λ d, match f d with
                       | Some k => bool_decide (k ∈ ks)
                       | None => false
                       end) c.
Proof.
  induction 1 as [|k ks Hk Hnd IH].
  - symmetry. apply countDocuments_never. intros d.
    by destruct (f d).
  - rewrite fmap_cons.
    change (sum_list (?a :: ?l)) with (a + sum_list l).
    rewrite IH. symmetry. apply countDocuments_split. intros d.
    destruct (f d) as [x|]; [|by rewrite bool_decide_eq_false_2].
    destruct (decide (x = k)) as [->|Hne].
    + rewrite (bool_decide_eq_true_2 (k ∈ k :: ks)) by left.
      rewrite (bool_decide_eq_true_2 (Some k = Some k)) by done.
      by rewrite (bool_decide_eq_false_2 (k ∈ ks)).
    + rewrite (bool_decide_eq_false_2 (Some x = Some k)) by congruence.
      simpl. destruct (decide (x ∈ ks)) as [Hin|Hin].
      * rewrite !bool_decide_eq_true_2; [done..|by right].
      * rewrite !bool_decide_eq_false_2; [done|done|].
        by intros [?|?]%elem_of_cons.
Qed.

Lemma NoDup_find_docs_keys q c : NoDup (find_docs q c).*1.
Proof. apply NoDup_fst_map_to_list. Qed.

(** The elements of a sorted listing are the images of the documents that
    satisfy the filter. *)
Lemma elem_of_listing {A} (key : A → nat) (f : nat * D → A) q c x :
  x ∈ sort_desc key (f <$> find_docs q c) ↔
  ∃ k d, c !! k = Some d ∧ q d = true ∧ x = f (k, d).
Proof.
  rewrite sort_desc_perm, list_elem_of_fmap. split.
  - intros ([k d] & -> & Hin). apply elem_of_find_docs in Hin as [??]. eauto.
  - intros (k & d & Hk & Hq & ->). exists (k, d). split; [done|].
    by apply elem_of_find_docs.
Qed.
End counting.

Lemma or0_Some n : or0 (Some n) = n.
Proof. by destruct n. Qed.

(** The [|| 0] after a [$group] on [_id: null] gives the accumulated value,
    which is zero when no document reached the stage. *)
Lemma or0_head_group {A B} (acc : list A → B) (proj : B → nat) (l : list A) :
  proj (acc []) = 0 → or0 (proj <$> head (group_null acc l)) = proj (acc l).
Proof. intros Hnil. destruct l; simpl; [done|apply or0_Some]. Qed.

Section more_dashboard.
Import DashboardController.

Lemma getChannelStats_eq (u : nat) (db : Db) :
  getChannelStats (Some u) db =
    (inr (mkResponse 200 []
            (new_ApiResponse 200
               (JObj [("totalSubscribers",
                       JNum (countDocuments
                               (λ s, bool_decide (Subscription.channel s = u))
                               (subscriptions db)));
                      ("totalLikes", JNum (total_likes u db));
                      ("totalViews",
                       JNum (sum_list ((λ v : nat * Video.doc, Video.views v.2)
                                         <$> owned_videos u db)));
                      ("totalVideos", JNum (length (owned_videos u db)))])
               (Some "Channel stats fetched successfully") true)), db).
Proof.
  unfold getChannelStats, getUserId, getTotalSubscribers, getVideoStats,
    bind, aggregate, ret, respond. simpl.
  fold (owned_videos u db). unfold total_likes, on_video_of.
  rewrite <-(sum_of_counts Like.video _ (likes db)) by apply NoDup_find_docs_keys.
  rewrite !or0_head_group by done.
  rewrite <-(option_fmap_id (head (group_null _ (find_docs _ (subscriptions db))))).
  rewrite (or0_head_group _ id) by done. simpl.
  rewrite <-!list_fmap_compose, length_fmap. reflexivity.
Qed.

(** X6.  [getChannelStats] refuses a request without identity with 401 and
    otherwise answers 200 with the true totals of the channel, the [|| 0]
    defaults never hiding a count: the subscriptions to the channel, the
    like records that refer to one of its stored videos, the sum of the
    views of those videos, and their number.  It never writes. *)
Theorem channel_stats_are_the_totals (u : nat) (db : Db) :
  getChannelStats None db = (inl (ApiError 401 "User not authenticated"), db) ∧
  getChannelStats (Some u) db =
    (inr (mkResponse 200 []
            (new_ApiResponse 200
               (JObj [("totalSubscribers",
                       JNum (countDocuments
                               (λ s, bool_decide (Subscription.channel s = u))
                               (subscriptions db)));
                      ("totalLikes", JNum (total_likes u db));
                      ("totalViews",
                       JNum (sum_list ((λ v : nat * Video.doc, Video.views v.2)
                                         <$> owned_videos u db)));
                      ("totalVideos", JNum (length (owned_videos u db)))])
               (Some "Channel stats fetched successfully") true)), db).
Proof. split; [done|apply getChannelStats_eq]. Qed.

Lemma elem_of_owned_videos u db v :
  v ∈ (owned_videos u db).*1 ↔ ∃ vd, videos db !! v = Some vd ∧ Video.owner vd = u.
Proof.
  rewrite list_elem_of_fmap. split.
  - intros ([v' vd] & -> & Hin). apply elem_of_find_docs in Hin as [? Ho].
    apply bool_decide_eq_true in Ho. eauto.
  - intros (vd & Hv & Ho). exists (v, vd). split; [done|].
    apply elem_of_find_docs. split; [done|]. by apply bool_decide_eq_true.
Qed.

(** X7.  A first like on a stored video raises the [totalLikes] of the
    channel that owns the video by one; a like on an id that is no stored
    video is accepted all the same and raises the total of no channel. *)
Theorem like_raises_total_likes (liker v u : nat) (db : Db) :
  like_count (Some liker) (OnVideo v) db = 0 →
  let db' := after (toggle (Some liker) (OnVideo v) db) in
  like_count (Some liker) (OnVideo v) db' = 1 ∧
  total_likes u db' =
    match videos db !! v with
    | Some vd => if bool_decide (Video.owner vd = u) then S (total_likes u db)
                 else total_likes u db
    | None => total_likes u db
    end ∧
  reports payload (outcome (getChannelStats (Some u) db')) "totalLikes"
          (JNum (total_likes u db')).
Proof.
  intros Hzero db'.
  assert (Hdb' : db' = tick (with_coll Likes
            (<[fresh (dom (likes db)) := like_doc (Some liker) (OnVideo v) (clock db)]>
               (likes db)) db)).
  { subst db'. rewrite after_toggle. unfold toggled.
    apply head_find_docs_None in Hzero. by rewrite Hzero. }
  split; [|split].
  - subst db'. rewrite after_toggle, like_count_toggled. by rewrite Hzero.
  - rewrite Hdb'. unfold total_likes. simpl.
    rewrite countDocuments_insert by apply fresh_not_in.
    unfold on_video_of at 1. simpl.
    change (owned_videos u (tick _)) with (owned_videos u db).
    destruct (videos db !! v) as [vd|] eqn:Hv.
    + destruct (decide (Video.owner vd = u)) as [Ho|Ho].
      * rewrite (bool_decide_eq_true_2 (Video.owner vd = u)) by done.
        rewrite bool_decide_eq_true_2; [done|]. apply elem_of_owned_videos. eauto.
      * rewrite (bool_decide_eq_false_2 (Video.owner vd = u)) by done.
        rewrite bool_decide_eq_false_2; [done|].
        intros (vd' & Hv' & Ho')%elem_of_owned_videos. congruence.
    + rewrite bool_decide_eq_false_2; [done|].
      intros (vd' & Hv' & Ho')%elem_of_owned_videos. congruence.
  - rewrite getChannelStats_eq. by eexists.
Qed.

Lemma like_raises_total_likes_witness :
  let vd := Video.mk 4 "title" "description" "file" "thumb" 0 0 true 0 in
  let db := mkDb ∅ {[7 := vd]} ∅ ∅ ∅ ∅ ∅ 0 in
  like_count (Some 1) (OnVideo 7) db = 0 ∧
  total_likes 4 (after (toggle (Some 1) (OnVideo 7) db)) = S (total_likes 4 db) ∧
  total_likes 4 (after (toggle (Some 1) (OnVideo 9) db)) = total_likes 4 db.
Proof.
  intros vd db.
  assert (H7 : like_count (Some 1) (OnVideo 7) db = 0) by (by vm_compute).
  assert (H9 : like_count (Some 1) (OnVideo 9) db = 0) by (by vm_compute).
  split; [exact H7|]. split.
  - exact (proj1 (proj2 (like_raises_total_likes 1 7 4 db H7))).
  - exact (proj1 (proj2 (like_raises_total_likes 1 9 4 db H9))).
Defined.

(** X8.  [getChannelVideos] refuses a request without identity with 401;
    otherwise it answers 200 with exactly the stored videos of the caller,
    newest first, each with the number of like records that refer to it.
    It never writes. *)
Theorem channel_videos_listing (dateToParts : nat → nat * nat * nat) (u : nat) (db : Db) :
  getChannelVideos dateToParts None db =
    (inl (ApiError 401 "User not authenticated"), db) ∧
  getChannelVideos dateToParts (Some u) db =
    (inr (mkResponse 200 []
            (new_ApiResponse 200
               (JArr (channelVideo_json dateToParts <$> channelVideosAggregate u db))
               (Some "Videos fetched successfully") true)), db) ∧
  (∀ x, x ∈ channelVideosAggregate u db ↔
        videos db !! chv_id x = Some (chv_video x) ∧ Video.owner (chv_video x) = u ∧
        chv_likesCount x = likes_on (OnVideo (chv_id x)) db) ∧
  StronglySorted (λ a b, Video.createdAt (chv_video b) ≤ Video.createdAt (chv_video a))
                 (channelVideosAggregate u db) ∧
  length (channelVideosAggregate u db) = length (owned_videos u db).
Proof.
  split; [done|]. split; [done|]. split; [|split].
  - intros x. unfold channelVideosAggregate. rewrite elem_of_listing. split.
    + intros (k & d & Hk & Hq & ->). simpl. by apply bool_decide_eq_true in Hq.
    + intros (Hk & Ho & Hn). exists (chv_id x), (chv_video x).
      split; [done|]. split; [by apply bool_decide_eq_true|].
      destruct x. simpl in *. by rewrite Hn.
  - apply (sort_desc_sorted (λ x, Video.createdAt (chv_video x))).
  - unfold channelVideosAggregate. by rewrite length_sort_desc, length_fmap.
Qed.
End more_dashboard.

(* ===================================================================== *)
(** ** Further properties of the tweet controller                         *)
(* ===================================================================== *)

Section more_tweets.
Import TweetController.

(** X9.  The owner of a stored tweet can update it and delete it.  The
    update replaces the content and keeps owner and creation time; the
    delete removes that tweet alone.  Either way no other tweet and no
    other collection changes: the likes of a deleted tweet stay stored. *)
Theorem tweet_owner_updates_and_deletes (u id : nat) (tw : Tweet.doc) (c : string)
    (db : Db) :
  c ≠ "" →
  tweets db !! id = Some tw →
  Tweet.owner tw = Some u →
  updateTweet (Some u) (Some c) (Oid id) db =
    (inr (mkResponse 200 []
            (new_ApiResponse 200
               (tweet_json (id, Tweet.mk c (Some u) (Tweet.createdAt tw)))
               (Some "Tweet updated successfully") true)),
     with_coll Tweets (<[id := Tweet.mk c (Some u) (Tweet.createdAt tw)]> (tweets db)) db) ∧
  deleteTweet (Some u) (Oid id) db =
    (inr (mkResponse 200 []
            (new_ApiResponse 200 (JObj [("tweetId", JId id)])
               (Some "Tweet deleted successfully") true)),
     with_coll Tweets (delete id (tweets db)) db) ∧
  likes_on (OnTweet id) (after (deleteTweet (Some u) (Oid id) db)) =
    likes_on (OnTweet id) db.
Proof.
  intros Hc Hid Ho. split; [|split].
  - unfold updateTweet, findById, findByIdAndUpdate, owner_mismatch, bind, ret, respond.
    rewrite (truthy_nonempty c Hc). simpl. rewrite Hid. simpl. rewrite Ho. simpl.
    rewrite bool_decide_eq_true_2 by done. simpl. by rewrite Hid, Ho.
  - unfold deleteTweet, findById, findByIdAndDelete, owner_mismatch, bind, ret, respond.
    simpl. rewrite Hid. simpl. rewrite Ho. simpl.
    by rewrite bool_decide_eq_true_2.
  - unfold deleteTweet, findById, findByIdAndDelete, owner_mismatch, bind, ret, respond.
    simpl. rewrite Hid. simpl. rewrite Ho. simpl.
    by rewrite bool_decide_eq_true_2.
Qed.

Lemma tweet_owner_updates_and_deletes_witness :
  let db := after (createTweet (Some 2) (Some "first") emptyDb) in
  let tw := Tweet.mk "first" (Some 2) 0 in
  "second" ≠ "" ∧ tweets db !! 0 = Some tw ∧ Tweet.owner tw = Some 2 ∧
  tweets (after (updateTweet (Some 2) (Some "second") (Oid 0) db)) !! 0 =
    Some (Tweet.mk "second" (Some 2) 0) ∧
  tweets (after (deleteTweet (Some 2) (Oid 0) db)) !! 0 = None.
Proof.
  intros db tw.
  assert (Hc : "second" ≠ "") by discriminate.
  assert (Hid : tweets db !! 0 = Some tw) by reflexivity.
  destruct (tweet_owner_updates_and_deletes 2 0 tw "second" db Hc Hid eq_refl)
    as (Hupd & Hdel & _).
  split; [exact Hc|]. split; [exact Hid|]. split; [reflexivity|].
  rewrite Hupd, Hdel. split; reflexivity.
Defined.

Lemma elem_of_userTweetsAggregate caller w db (x : TweetView) :
  x ∈ userTweetsAggregate caller w db ↔
  ∃ tw, tweets db !! tv_id x = Some tw ∧ Tweet.owner tw = Some w ∧
        tv_content x = Tweet.content tw ∧ tv_createdAt x = Tweet.createdAt tw ∧
        tv_likesCount x = likes_on (OnTweet (tv_id x)) db ∧
        tv_ownerDetails x = (if users db !! w is Some _ then Some w else None) ∧
        tv_isLiked x =
          in_array (bson_of_user caller)
            (omap (λ l : nat * Like.doc, BOid <$> Like.likedBy l.2)
               (find_docs (λ l, bool_decide (Like.tweet l = Some (tv_id x))) (likes db))).
Proof.
  unfold userTweetsAggregate. rewrite elem_of_listing. split.
  - intros (k & tw & Hk & Hq & ->). apply bool_decide_eq_true in Hq. simpl.
    exists tw. rewrite Hq. simpl. repeat split; try done.
    + by destruct (users db !! w).
    + by destruct (in_array _ _).
  - intros (tw & Hk & Ho & Hc & Ht & Hn & Hod & Hl).
    exists (tv_id x), tw. split; [done|]. split; [by apply bool_decide_eq_true|].
    destruct x as [i c od n t l]. simpl in *. subst. rewrite Ho. simpl.
    f_equal; [by destruct (users db !! w)|by destruct (in_array _ _)].
Qed.

(** X10.  [getUserTweets] answers a malformed user id with 400.  For a
    well-formed one it answers 200 with exactly the stored tweets of that
    user, newest first; each item carries the tweet's content, the number
    of like records that refer to the tweet, and the owner's id when the
    owner is still a stored user.  It never writes. *)
Theorem user_tweets_listing (caller : option nat) (w : nat) (s : string) (db : Db) :
  getUserTweets caller (Malformed s) db = (inl (ApiError 400 "Invalid userId"), db) ∧
  getUserTweets caller (Oid w) db =
    (inr (mkResponse 200 []
            (new_ApiResponse 200
               (JArr (tweetView_json <$> userTweetsAggregate caller w db))
               (Some "Tweets fetched successfully") true)), db) ∧
  StronglySorted (λ a b, tv_createdAt b ≤ tv_createdAt a)
                 (userTweetsAggregate caller w db) ∧
  length (userTweetsAggregate caller w db) =
    countDocuments (λ t, bool_decide (Tweet.owner t = Some w)) (tweets db) ∧
  ∀ x, x ∈ userTweetsAggregate caller w db →
       ∃ tw, tweets db !! tv_id x = Some tw ∧ Tweet.owner tw = Some w ∧
             tv_content x = Tweet.content tw ∧
             tv_likesCount x = likes_on (OnTweet (tv_id x)) db ∧
             tv_ownerDetails x = (if users db !! w is Some _ then Some w else None).
Proof.
  split; [done|]. split; [done|]. split; [apply sort_desc_sorted|]. split.
  - unfold userTweetsAggregate. by rewrite length_sort_desc, length_fmap.
  - intros x (tw & ? & ? & ? & ? & ? & ? & ?)%elem_of_userTweetsAggregate. eauto 10.
Qed.

(** X11.  [createTweet] and [createPlaylist] test their input before they
    write: a request whose content (respectively name or description) is
    missing or empty is answered 400 and stores nothing.  A complete
    playlist request stores one new playlist, owned by the caller and
    holding no video, and answers 200. *)
Theorem creation_validates_before_writing (user : option nat)
    (content name description : option string) (db : Db) :
  (truthy content = false →
   createTweet user content db = (inl (ApiError 400 "Content is required"), db)) ∧
  (truthy name = false ∨ truthy description = false →
   PlaylistController.createPlaylist user name description db =
     (inl (ApiError 400 "Name and description are required"), db)) ∧
  (truthy name = true → truthy description = true →
   let id := fresh (dom (playlists db)) in
   let pl := Playlist.mk (default "" name) (default "" description) [] user in
   PlaylistController.createPlaylist user name description db =
     (inr (mkResponse 200 []
             (new_ApiResponse 200 (PlaylistController.playlist_json (id, pl))
                (Some "Playlist created successfully") true)),
      tick (with_coll Playlists (<[id := pl]> (playlists db)) db)) ∧
   playlists db !! id = None).
Proof.
  split; [|split].
  - intros Hc. unfold createTweet. by rewrite Hc.
  - intros Hnd. unfold PlaylistController.createPlaylist.
    by destruct Hnd as [-> | ->]; [|rewrite orb_true_r].
  - intros Hn Hd id pl. unfold PlaylistController.createPlaylist.
    rewrite Hn, Hd. split; [done|apply fresh_not_in].
Qed.
End more_tweets.

(* ===================================================================== *)
(** ** Further properties of the comment controller                       *)
(* ===================================================================== *)

Section more_comments.
Import CommentController.

(** X12.  [addComment] checks, in this order, the content (400), the form
    of the video id (a cast error of the model), the video (404) and the
    identity of the caller (a type error); only then does it store one
    comment, with the submitted content, the video and the caller as
    owner, and answer 201.  Nothing is written on any of the failures. *)
Theorem addComment_outcomes (user : option nat) (videoId : param)
    (content : option string) (db : Db) :
  addComment user videoId content db =
    if negb (truthy content) then (inl (ApiError 400 "Content is required"), db)
    else match videoId with
         | Malformed s => (inl (CastError s), db)
         | Oid v =>
             match videos db !! v, user with
             | None, _ => (inl (ApiError 404 "Video not found"), db)
             | Some _, None => (inl (TypeError "req.user._id"), db)
             | Some _, Some u =>
                 let id := fresh (dom (comments db)) in
                 let cm := Comment.mk (default "" content) v u (clock db) in
                 (inr (mkResponse 201 []
                         (new_ApiResponse 201 (comment_json (id, cm))
                            (Some "Comment added successfully") true)),
                  tick (with_coll Comments (<[id := cm]> (comments db)) db))
             end
         end.
Proof.
  unfold addComment, findById, user_id, create, bind, throw, ret, respond.
  destruct (truthy content); simpl; [|done].
  destruct videoId as [v|s]; simpl; [|done].
  destruct (videos db !! v); simpl; [|done]. by destruct user.
Qed.

(** X13.  The owner of a stored comment can update it and delete it.  The
    update replaces the content and keeps video, owner and creation time;
    the delete removes that comment alone, the [deleteMany] that follows
    it removing nothing.  The likes of a deleted comment stay stored. *)
Theorem comment_owner_updates_and_deletes (u id : nat) (cm : Comment.doc) (c : string)
    (db : Db) :
  c ≠ "" →
  comments db !! id = Some cm →
  Comment.owner cm = u →
  let cm' := Comment.mk c (Comment.video cm) u (Comment.createdAt cm) in
  updateComment (Some u) (Oid id) (Some c) db =
    (inr (mkResponse 200 []
            (new_ApiResponse 200 (comment_json (id, cm'))
               (Some "Comment updated successfully") true)),
     with_coll Comments (<[id := cm']> (comments db)) db) ∧
  deleteComment (Some u) (Oid id) db =
    (inr (mkResponse 200 []
            (new_ApiResponse 200 (JObj [("commentId", JId id)])
               (Some "Comment deleted successfully") true)),
     with_coll Comments (delete id (comments db)) db) ∧
  likes_on (OnComment id) (after (deleteComment (Some u) (Oid id) db)) =
    likes_on (OnComment id) db.
Proof.
  intros Hc Hid Ho cm'.
  assert (Hdel : deleteComment (Some u) (Oid id) db =
    (inr (mkResponse 200 []
            (new_ApiResponse 200 (JObj [("commentId", JId id)])
               (Some "Comment deleted successfully") true)),
     with_coll Comments (delete id (comments db)) db)).
  { unfold deleteComment, findById, findByIdAndDelete, deleteMany, user_id, bind,
      ret, respond. simpl. rewrite Hid. simpl.
    rewrite bool_decide_eq_true_2 by done. simpl.
    do 3 f_equal. apply map_filter_id. done. }
  split; [|split; [exact Hdel|by rewrite Hdel]].
  unfold updateComment, findById, findByIdAndUpdate, user_id, bind, ret, respond.
  rewrite (truthy_nonempty c Hc). simpl. rewrite Hid. simpl.
  rewrite bool_decide_eq_true_2 by done. simpl. rewrite Hid. subst cm'.
  by rewrite Ho.
Qed.

Lemma comment_owner_updates_and_deletes_witness :
  let db := db_with_comments 2 in
  let cm := Comment.mk "nice" 0 2 0 in
  "nicer" ≠ "" ∧ comments db !! 0 = Some cm ∧ Comment.owner cm = 2 ∧
  comments (after (updateComment (Some 2) (Oid 0) (Some "nicer") db)) !! 0 =
    Some (Comment.mk "nicer" 0 2 0) ∧
  comments (after (deleteComment (Some 2) (Oid 0) db)) !! 0 = None ∧
  is_Some (comments (after (deleteComment (Some 2) (Oid 0) db)) !! 1).
Proof.
  intros db cm.
  assert (Hc : "nicer" ≠ "") by discriminate.
  assert (Hid : comments db !! 0 = Some cm) by (by vm_compute).
  destruct (comment_owner_updates_and_deletes 2 0 cm "nicer" db Hc Hid eq_refl)
    as (Hupd & Hdel & _).
  split; [exact Hc|]. split; [exact Hid|]. split; [reflexivity|].
  rewrite Hupd, Hdel. split; [by vm_compute|]. split; [by vm_compute|].
  eexists. vm_compute. reflexivity.
Defined.

Lemma elem_of_commentsAggregate caller v db (x : CommentView) :
  x ∈ commentsAggregate caller v db ↔
  ∃ cm, comments db !! cv_id x = Some cm ∧ Comment.video cm = v ∧
        cv_content x = Comment.content cm ∧ cv_createdAt x = Comment.createdAt cm ∧
        cv_likesCount x = likes_on (OnComment (cv_id x)) db ∧
        cv_owner x = User.fullName <$> users db !! Comment.owner cm ∧
        cv_isLiked x =
          in_array (bson_of_user caller)
            (omap (λ l : nat * Like.doc, BOid <$> Like.likedBy l.2)
               (find_docs (λ l, bool_decide (Like.comment l = Some (cv_id x)))
                          (likes db))).
Proof.
  unfold commentsAggregate. rewrite elem_of_listing. split.
  - intros (k & cm & Hk & Hq & ->). apply bool_decide_eq_true in Hq. simpl.
    exists cm. repeat split; try done. by destruct (users db !! Comment.owner cm).
  - intros (cm & Hk & Hv & Hc & Ht & Hn & Ho & Hl).
    exists (cv_id x), cm. split; [done|]. split; [by apply bool_decide_eq_true|].
    destruct x as [i c t n o l]. simpl in *. subst.
    f_equal. by destruct (users db !! Comment.owner cm).
Qed.

(** X14.  [getVideoComments] looks the video up first: a malformed id
    raises the cast error of the model and an id that is no stored video
    is answered 404, whatever page is asked for.  The aggregation that is
    then paginated holds exactly the stored comments of the video, newest
    first, each with its content, the number of like records that refer
    to the comment, and the full name of its owner when the owner is still
    a stored user.  The handler never writes. *)
Theorem video_comments_listing (caller : option nat) (v : nat) (s : string)
    (page limit : option nat) (db : Db) :
  getVideoComments caller (Malformed s) page limit db = (inl (CastError s), db) ∧
  (videos db !! v = None →
   getVideoComments caller (Oid v) page limit db =
     (inl (ApiError 404 "Video not found"), db)) ∧
  after (getVideoComments caller (Oid v) page limit db) = db ∧
  StronglySorted (λ a b, cv_createdAt b ≤ cv_createdAt a)
                 (commentsAggregate caller v db) ∧
  ∀ x, x ∈ commentsAggregate caller v db ↔
       ∃ cm, comments db !! cv_id x = Some cm ∧ Comment.video cm = v ∧
             cv_content x = Comment.content cm ∧
             cv_createdAt x = Comment.createdAt cm ∧
             cv_likesCount x = likes_on (OnComment (cv_id x)) db ∧
             cv_owner x = User.fullName <$> users db !! Comment.owner cm ∧
             cv_isLiked x =
               in_array (bson_of_user caller)
                 (omap (λ l : nat * Like.doc, BOid <$> Like.likedBy l.2)
                    (find_docs (λ l, bool_decide (Like.comment l = Some (cv_id x)))
                               (likes db))).
Proof.
  split; [done|]. split; [|split; [|split]].
  - intros Hv. unfold getVideoComments, findById, bind. simpl. by rewrite Hv.
  - unfold getVideoComments, findById, bind. simpl.
    by destruct (videos db !! v).
  - apply sort_desc_sorted.
  - intros x. apply elem_of_commentsAggregate.
Qed.
End more_comments.

(* ===================================================================== *)
(** ** Further properties of the guarded mutations                        *)
(* ===================================================================== *)

Section more_ownership.

(** X15.  With no identity attached to the request, a well-formed update
    or delete of a stored, owned entity never goes through: the tweet and
    playlist handlers refuse it as they refuse a non-owner (400), the
    comment handlers fail on reading the identity.  Nothing is written. *)
Theorem mutation_without_identity (m : mutation) (o : nat) (db : Db) :
  well_formed m = true →
  entity_owner m db = Some (Some o) →
  serve None m db = (inl (without_identity m), db).
Proof.
  intros Hwf Hsome.
  destruct m as [c [o'|s]|[o'|s]|[o'|s] c|[o'|s]|n d [o'|s]|[o'|s]];
    simpl in Hwf, Hsome; repeat (apply andb_true_iff in Hwf as [Hwf ?]);
    try discriminate;
    unfold serve, TweetController.updateTweet, TweetController.deleteTweet,
      CommentController.updateComment, CommentController.deleteComment,
      PlaylistController.updatePlaylist, PlaylistController.deletePlaylist,
      CommentController.user_id, owner_mismatch, findById, bind, ret, throw; simpl;
    apply fmap_Some in Hsome as (e & He & Ho);
    repeat match goal with H : truthy _ = true |- _ => rewrite H; clear H end;
    simpl; rewrite He; simpl; try rewrite <-Ho; done.
Qed.

Lemma mutation_without_identity_witness :
  let db := db_with_comments 1 in
  well_formed (DeleteComment (Oid 0)) = true ∧
  entity_owner (DeleteComment (Oid 0)) db = Some (Some 2) ∧
  serve None (DeleteComment (Oid 0)) db = (inl (TypeError "req.user._id"), db).
Proof.
  intros db.
  assert (He : entity_owner (DeleteComment (Oid 0)) db = Some (Some 2))
    by (by vm_compute).
  split; [reflexivity|]. split; [exact He|].
  exact (mutation_without_identity (DeleteComment (Oid 0)) 2 db eq_refl He).
Defined.

(** X16.  What a user creates, that user can delete, and the collection is
    then what it was before the creation: for a tweet, for a comment on a
    stored video, and for a playlist. *)
Theorem create_then_delete (u v : nat) (c name description : string) (db : Db) :
  c ≠ "" → name ≠ "" → description ≠ "" → is_Some (videos db !! v) →
  (let db1 := after (TweetController.createTweet (Some u) (Some c) db) in
   let id := fresh (dom (tweets db)) in
   (∃ resp, outcome (TweetController.deleteTweet (Some u) (Oid id) db1) = inr resp) ∧
   tweets (after (TweetController.deleteTweet (Some u) (Oid id) db1)) = tweets db) ∧
  (let db1 := after (CommentController.addComment (Some u) (Oid v) (Some c) db) in
   let id := fresh (dom (comments db)) in
   (∃ resp, outcome (CommentController.deleteComment (Some u) (Oid id) db1) = inr resp) ∧
   comments (after (CommentController.deleteComment (Some u) (Oid id) db1)) =
     comments db) ∧
  (let db1 := after (PlaylistController.createPlaylist (Some u) (Some name)
                       (Some description) db) in
   let id := fresh (dom (playlists db)) in
   (∃ resp, outcome (PlaylistController.deletePlaylist (Some u) (Oid id) db1)
            = inr resp) ∧
   playlists (after (PlaylistController.deletePlaylist (Some u) (Oid id) db1)) =
     playlists db).
Proof.
  intros Hc Hn Hd [vd Hv].
  pose proof (truthy_nonempty c Hc) as Tc.
  pose proof (truthy_nonempty name Hn) as Tn.
  pose proof (truthy_nonempty description Hd) as Td.
  split; [|split].
  - unfold TweetController.createTweet, TweetController.deleteTweet, create, findById,
      findByIdAndDelete, owner_mismatch, bind, ret, respond, after, outcome.
    rewrite Tc. simpl. rewrite lookup_insert_eq. simpl.
    rewrite bool_decide_eq_true_2 by done. simpl.
    split; [by eexists|]. rewrite delete_insert_eq. apply delete_id, fresh_not_in.
  - unfold CommentController.addComment, CommentController.deleteComment, create,
      findById, findByIdAndDelete, deleteMany, CommentController.user_id, bind, ret,
      respond, after, outcome.
    rewrite Tc. simpl. rewrite Hv. simpl. rewrite lookup_insert_eq. simpl.
    rewrite bool_decide_eq_true_2 by done. simpl.
    split; [by eexists|]. rewrite delete_insert_eq, map_filter_id by done.
    apply delete_id, fresh_not_in.
  - unfold PlaylistController.createPlaylist, PlaylistController.deletePlaylist, create,
      findById, findByIdAndDelete, owner_mismatch, bind, ret, respond, after, outcome.
    rewrite Tn, Td. simpl. rewrite lookup_insert_eq. simpl.
    rewrite bool_decide_eq_true_2 by done. simpl.
    split; [by eexists|]. rewrite delete_insert_eq. apply delete_id, fresh_not_in.
Qed.

Lemma create_then_delete_witness :
  let db := db_with_comments 2 in
  "hello" ≠ "" ∧ "mix" ≠ "" ∧ "songs" ≠ "" ∧ is_Some (videos db !! 0) ∧
  comments (after (CommentController.deleteComment (Some 5) (Oid 2)
              (after (CommentController.addComment (Some 5) (Oid 0) (Some "hello") db))))
    = comments db.
Proof.
  intros db.
  assert (H1 : "hello" ≠ "") by discriminate.
  assert (H2 : "mix" ≠ "") by discriminate.
  assert (H3 : "songs" ≠ "") by discriminate.
  assert (H4 : is_Some (videos db !! 0)) by (by exists video0).
  split; [exact H1|]. split; [exact H2|]. split; [exact H3|]. split; [exact H4|].
  exact (proj2 (proj1 (proj2 (create_then_delete 5 0 "hello" "mix" "songs" db
                                H1 H2 H3 H4)))).
Defined.

(** X17.  A toggle moves the number of like records on its target by
    exactly one: up when the pair had no like, down when it had one. *)
Theorem toggle_moves_the_count_by_one (user : option nat) (t : target) (db : Db) :
  if liked user t db
  then S (likes_on t (after (toggle user t db))) = likes_on t db
  else likes_on t (after (toggle user t db)) = S (likes_on t db).
Proof.
  rewrite after_toggle. unfold toggled, liked, likes_on, like_count.
  destruct (head (find_docs _ (likes db))) as [[id d]|] eqn:Hhd; simpl.
  - apply head_find_docs_Some in Hhd as [Hid Hq].
    rewrite bool_decide_eq_true_2
      by (rewrite (countDocuments_delete _ _ _ _ Hid), Hq; lia).
    rewrite (countDocuments_delete _ (likes db) _ _ Hid).
    assert (Hon : match t with
                  | OnVideo v => bool_decide (Like.video d = Some v)
                  | OnComment c => bool_decide (Like.comment d = Some c)
                  | OnTweet x => bool_decide (Like.tweet d = Some x)
                  end = true).
    { destruct t; simpl in Hq; by apply andb_true_iff in Hq as [-> _]. }
    by rewrite Hon.
  - apply head_find_docs_None in Hhd. rewrite Hhd.
    rewrite bool_decide_eq_false_2 by lia.
    rewrite countDocuments_insert by apply fresh_not_in.
    by destruct t; simpl; rewrite bool_decide_eq_true_2.
Qed.
End more_ownership.

(* ===================================================================== *)
(** ** Further properties of the playlist controller                      *)
(* ===================================================================== *)

Section more_playlists.
Import PlaylistController.

Lemma playlist_eta (pl : Playlist.doc) :
  Playlist.mk (Playlist.name pl) (Playlist.description pl) (Playlist.videos pl)
              (Playlist.owner pl) = pl.
Proof. by destruct pl. Qed.

Lemma membership_pull_same v l : membership v (pull v l) = 0.
Proof.
  apply membership_absent. unfold pull. rewrite list_elem_of_filter. tauto.
Qed.

Lemma membership_pull_other v w l : w ≠ v → membership w (pull v l) = membership w l.
Proof.
  intros Hne. unfold membership, pull. rewrite list_filter_filter. f_equal.
  apply list_filter_iff. intros x. split; [tauto|]. intros ->. done.
Qed.

Lemma pull_addToSet_fresh v l : v ∉ l → pull v (addToSet v l) = l.
Proof.
  intros Hin. unfold addToSet. rewrite bool_decide_eq_false_2 by done.
  unfold pull. rewrite filter_app, filter_cons_False, filter_nil, app_nil_r by tauto.
  induction l as [|x l IH]; [done|].
  apply not_elem_of_cons in Hin as [Hne Hin].
  rewrite filter_cons_True by done. f_equal. by apply IH.
Qed.

(** X18.  The owner of a stored playlist can update it and delete it.  The
    update replaces name and description and keeps the videos and the
    owner; the delete removes that playlist alone.  No other playlist and
    no other collection changes. *)
Theorem playlist_owner_updates_and_deletes (u p : nat) (pl : Playlist.doc)
    (name description : string) (db : Db) :
  name ≠ "" → description ≠ "" →
  playlists db !! p = Some pl →
  Playlist.owner pl = Some u →
  let pl' := Playlist.mk name description (Playlist.videos pl) (Some u) in
  updatePlaylist (Some u) (Some name) (Some description) (Oid p) db =
    (inr (mkResponse 200 []
            (new_ApiResponse 200 (playlist_json (p, pl'))
               (Some "Playlist updated successfully") true)),
     with_coll Playlists (<[p := pl']> (playlists db)) db) ∧
  deletePlaylist (Some u) (Oid p) db =
    (inr (mkResponse 200 []
            (new_ApiResponse 200 (JObj []) (Some "Playlist deleted successfully") true)),
     with_coll Playlists (delete p (playlists db)) db).
Proof.
  intros Hn Hd Hp Ho pl'. split.
  - unfold updatePlaylist, findById, findByIdAndUpdate, owner_mismatch, bind, ret,
      respond.
    rewrite (truthy_nonempty name Hn), (truthy_nonempty description Hd). simpl.
    rewrite Hp. simpl. rewrite Ho. simpl.
    rewrite bool_decide_eq_true_2 by done. simpl. rewrite Hp. subst pl'.
    by rewrite Ho.
  - unfold deletePlaylist, findById, findByIdAndDelete, owner_mismatch, bind, ret,
      respond.
    simpl. rewrite Hp. simpl. rewrite Ho. simpl.
    by rewrite bool_decide_eq_true_2.
Qed.

Lemma playlist_owner_updates_and_deletes_witness :
  let pl := Playlist.mk "mix" "songs" [4; 9] (Some 1) in
  let db := mkDb ∅ ∅ ∅ ∅ ∅ {[0 := pl]} ∅ 0 in
  "best" ≠ "" ∧ "of" ≠ "" ∧ playlists db !! 0 = Some pl ∧ Playlist.owner pl = Some 1 ∧
  playlists (after (updatePlaylist (Some 1) (Some "best") (Some "of") (Oid 0) db)) !! 0
    = Some (Playlist.mk "best" "of" [4; 9] (Some 1)) ∧
  playlists (after (deletePlaylist (Some 1) (Oid 0) db)) !! 0 = None.
Proof.
  intros pl db.
  assert (H1 : "best" ≠ "") by discriminate.
  assert (H2 : "of" ≠ "") by discriminate.
  destruct (playlist_owner_updates_and_deletes 1 0 pl "best" "of" db H1 H2
              eq_refl eq_refl) as [Hupd Hdel].
  split; [exact H1|]. split; [exact H2|]. split; [reflexivity|]. split; [reflexivity|].
  rewrite Hupd, Hdel. split; reflexivity.
Defined.

Lemma removeVideoFromPlaylist_by_owner u p v pl db :
  playlists db !! p = Some pl → Playlist.owner pl = Some u →
  is_Some (videos db !! v) →
  let pl' := Playlist.mk (Playlist.name pl) (Playlist.description pl)
               (pull v (Playlist.videos pl)) (Playlist.owner pl) in
  removeVideoFromPlaylist (Some u) (Oid p) (Oid v) db =
    (inr (mkResponse 200 []
            (new_ApiResponse 200 (playlist_json (p, pl'))
               (Some "Video removed from playlist successfully") true)),
     with_coll Playlists (<[p := pl']> (playlists db)) db).
Proof.
  intros Hp Ho [vd Hv] pl'.
  unfold removeVideoFromPlaylist, findById, findByIdAndUpdate, owner_mismatch, bind,
    ret, respond.
  simpl. rewrite Hp, Hv. simpl. rewrite Ho. simpl.
  rewrite bool_decide_eq_true_2 by done. simpl. by rewrite Hp.
Qed.

(** X19.  When the owner removes a stored video from a playlist, the
    answer is 200 and the playlist is left with no entry for that video,
    however many it had; the entries for every other video are as many as
    before, and no other playlist changes. *)
Theorem remove_video_by_owner (u p v : nat) (pl : Playlist.doc) (db : Db) :
  playlists db !! p = Some pl →
  Playlist.owner pl = Some u →
  is_Some (videos db !! v) →
  let db' := after (removeVideoFromPlaylist (Some u) (Oid p) (Oid v) db) in
  (∃ resp, outcome (removeVideoFromPlaylist (Some u) (Oid p) (Oid v) db) = inr resp ∧
           status resp = 200) ∧
  (∃ pl', playlists db' !! p = Some pl' ∧
          membership v (Playlist.videos pl') = 0 ∧
          (∀ w, w ≠ v → membership w (Playlist.videos pl') =
                         membership w (Playlist.videos pl)) ∧
          Playlist.name pl' = Playlist.name pl ∧ Playlist.owner pl' = Some u) ∧
  ∀ q, q ≠ p → playlists db' !! q = playlists db !! q.
Proof.
  intros Hp Ho Hv db'. subst db'.
  rewrite (removeVideoFromPlaylist_by_owner u p v pl db Hp Ho Hv). simpl.
  split; [by eexists|]. split.
  - eexists. split; [apply lookup_insert_eq|]. simpl.
    split; [apply membership_pull_same|].
    split; [intros w Hw; by apply membership_pull_other|done].
  - intros q Hq. by apply lookup_insert_ne.
Qed.

Lemma remove_video_by_owner_witness :
  let pl := Playlist.mk "mix" "songs" [4; 9; 4] (Some 1) in
  let vd := Video.mk 2 "t" "d" "f" "th" 0 0 true 0 in
  let db := mkDb ∅ {[4 := vd]} ∅ ∅ ∅ {[0 := pl]} ∅ 0 in
  playlists db !! 0 = Some pl ∧ Playlist.owner pl = Some 1 ∧
  is_Some (videos db !! 4) ∧
  ∃ pl', playlists (after (removeVideoFromPlaylist (Some 1) (Oid 0) (Oid 4) db)) !! 0
           = Some pl' ∧
         membership 4 (Playlist.videos pl') = 0.
Proof.
  intros pl vd db.
  assert (H3 : is_Some (videos db !! 4)) by (by exists vd).
  split; [reflexivity|]. split; [reflexivity|]. split; [exact H3|].
  destruct (remove_video_by_owner 1 0 4 pl db eq_refl eq_refl H3)
    as (_ & (pl' & Hpl' & Hm & _) & _).
  exists pl'. split; [exact Hpl'|exact Hm].
Defined.

(** X20.  Adding a stored video that a playlist does not hold and then
    removing it gives back the playlist collection as it was; removing a
    video and then adding it leaves exactly one entry for it, whatever the
    playlist held before. *)
Theorem add_and_remove_compose (u p v : nat) (pl : Playlist.doc) (db : Db) :
  playlists db !! p = Some pl →
  Playlist.owner pl = Some u →
  is_Some (videos db !! v) →
  (v ∉ Playlist.videos pl →
   playlists (after (removeVideoFromPlaylist (Some u) (Oid p) (Oid v)
                (after (addVideoToPlaylist (Some u) (Oid p) (Oid v) db)))) =
   playlists db) ∧
  ∃ pl', playlists (after (addVideoToPlaylist (Some u) (Oid p) (Oid v)
                      (after (removeVideoFromPlaylist (Some u) (Oid p) (Oid v) db))))
           !! p = Some pl' ∧
         membership v (Playlist.videos pl') = 1.
Proof.
  intros Hp Ho Hv. split.
  - intros Hin.
    destruct (addVideoToPlaylist_by_owner u p v pl db Hp Ho Hv) as [H1 _].
    rewrite H1. unfold added.
    set (pl1 := Playlist.mk _ _ (addToSet v _) _).
    rewrite (removeVideoFromPlaylist_by_owner u p v pl1); simpl;
      [|apply lookup_insert_eq|done|done].
    rewrite insert_insert_eq, pull_addToSet_fresh by done.
    rewrite playlist_eta. by apply insert_id.
  - set (db1 := after (removeVideoFromPlaylist (Some u) (Oid p) (Oid v) db)).
    set (pl1 := Playlist.mk (Playlist.name pl) (Playlist.description pl)
                  (pull v (Playlist.videos pl)) (Playlist.owner pl)).
    assert (Hdb1 : db1 = with_coll Playlists (<[p := pl1]> (playlists db)) db)
      by (subst db1; by rewrite (removeVideoFromPlaylist_by_owner u p v pl db Hp Ho Hv)).
    assert (Hp1 : playlists db1 !! p = Some pl1)
      by (rewrite Hdb1; apply lookup_insert_eq).
    assert (Hv1 : is_Some (videos db1 !! v)) by (by rewrite Hdb1).
    destruct (addVideoToPlaylist_by_owner u p v pl1 db1 Hp1 Ho Hv1) as [H2 _].
    rewrite H2. unfold added. simpl. eexists. split; [apply lookup_insert_eq|].
    simpl. unfold addToSet.
    rewrite bool_decide_eq_false_2
      by (unfold pull; rewrite list_elem_of_filter; tauto).
    unfold membership. rewrite filter_app, length_app.
    fold (membership v (pull v (Playlist.videos pl))).
    rewrite membership_pull_same. by rewrite filter_cons_True, filter_nil.
Qed.

Lemma add_and_remove_compose_witness :
  let pl := Playlist.mk "mix" "songs" [4; 9] (Some 1) in
  let vd := Video.mk 2 "t" "d" "f" "th" 0 0 true 0 in
  let db := mkDb ∅ {[3 := vd]} ∅ ∅ ∅ {[0 := pl]} ∅ 0 in
  playlists db !! 0 = Some pl ∧ Playlist.owner pl = Some 1 ∧
  is_Some (videos db !! 3) ∧ (3 ∉ Playlist.videos pl) ∧
  playlists (after (removeVideoFromPlaylist (Some 1) (Oid 0) (Oid 3)
               (after (addVideoToPlaylist (Some 1) (Oid 0) (Oid 3) db)))) =
  playlists db.
Proof.
  intros pl vd db.
  assert (H3 : is_Some (videos db !! 3)) by (by exists vd).
  assert (H4 : 3 ∉ Playlist.videos pl)
    by (apply (bool_decide_unpack (3 ∉ [4; 9])); by vm_compute).
  split; [reflexivity|]. split; [reflexivity|]. split; [exact H3|].
  split; [exact H4|].
  exact (proj1 (add_and_remove_compose 1 0 3 pl db eq_refl eq_refl H3) H4).
Defined.

(** X21.  Whatever playlist requests are served one after the other, by
    whatever callers, a database whose playlists hold no video twice stays
    such a database. *)
Theorem playlist_requests_keep_sets
    (reqs : list (option nat * playlist_request)) (db : Db) :
  playlists_are_sets db → playlists_are_sets (run_playlist_requests reqs db).
Proof.
  revert db. induction reqs as [|[user r] reqs IH]; intros db Hinv; simpl; [done|].
  apply IH. destruct r; unfold serve_playlist; simpl.
  - by apply createPlaylist_keeps_sets.
  - by apply updatePlaylist_keeps_sets.
  - by apply deletePlaylist_keeps_sets.
  - by apply addVideoToPlaylist_keeps_sets.
  - by apply removeVideoFromPlaylist_keeps_sets.
Qed.

Lemma playlist_requests_keep_sets_witness :
  let vd := Video.mk 2 "t" "d" "f" "th" 0 0 true 0 in
  let db := mkDb ∅ {[3 := vd]} ∅ ∅ ∅ ∅ ∅ 0 in
  let reqs := [(Some 1, CreatePlaylist (Some "mix") (Some "songs"));
               (Some 1, AddVideo (Oid 0) (Oid 3));
               (Some 1, AddVideo (Oid 0) (Oid 3))] in
  playlists_are_sets db ∧ playlists_are_sets (run_playlist_requests reqs db) ∧
  Playlist.videos <$> playlists (run_playlist_requests reqs db) !! 0 = Some [3].
Proof.
  intros vd db reqs.
  assert (H : playlists_are_sets db) by apply map_Forall_empty.
  split; [exact H|]. split; [exact (playlist_requests_keep_sets reqs db H)|].
  by vm_compute.
Defined.

(** X22.  [addVideoToPlaylist] and [removeVideoFromPlaylist] run the same
    checks in the same order and write only when all pass: an ill-formed
    id of either kind is answered 400; a missing playlist 404, before a
    missing video 404; a caller who is not the owner 400. *)
Theorem playlist_video_checks (user : option nat) (playlistId videoId : param) (db : Db) :
  Forall (λ h : (option nat → param → param → M Response) * string,
    (isValidObjectId playlistId && isValidObjectId videoId = false →
     h.1 user playlistId videoId db = (inl (ApiError 400 "Invalid PlaylistId or VideoId"), db)) ∧
    (∀ p v, playlistId = Oid p → videoId = Oid v →
       (playlists db !! p = None →
        h.1 user playlistId videoId db = (inl (ApiError 404 "Playlist not found"), db)) ∧
       (is_Some (playlists db !! p) → videos db !! v = None →
        h.1 user playlistId videoId db = (inl (ApiError 404 "Video not found"), db)) ∧
       (∀ pl o, playlists db !! p = Some pl → is_Some (videos db !! v) →
          Playlist.owner pl = Some o → user ≠ Some o →
          h.1 user playlistId videoId db = (inl (ApiError 400 h.2), db))))
    [(addVideoToPlaylist, "Only the owner can add videos to their playlist");
     (removeVideoFromPlaylist, "Only the owner can remove videos from their playlist")].
Proof.
  apply Forall_cons_2; [|apply Forall_cons_2; [|apply Forall_nil_2]]; simpl.
  all: split;
    [intros Hbad; unfold addVideoToPlaylist, removeVideoFromPlaylist;
     apply andb_false_iff in Hbad as [-> | ->]; simpl; by rewrite ?orb_true_r|].
  all: intros p v -> ->;
    unfold addVideoToPlaylist, removeVideoFromPlaylist, findById, owner_mismatch,
      bind, ret, throw; simpl; split; [|split].
  all: try (intros ->; by destruct (videos db !! v)).
  all: try (intros [pl ->] ->; done).
  all: intros pl o -> [vd ->] Ho Hne; simpl; rewrite Ho; simpl;
    by rewrite bool_decide_eq_false_2.
Qed.
End more_playlists.

Section playlist_listings.
Import PlaylistController.

Lemma elem_of_lookup_in {D} (c : gmap nat D) (refs : list nat) k d :
  (k, d) ∈ lookup_in c refs ↔ c !! k = Some d ∧ k ∈ refs.
Proof.
  unfold lookup_in. by rewrite elem_of_map_to_list, map_lookup_filter_Some.
Qed.

(** The join counts each stored reference once, and no other. *)
Lemma length_lookup_in {D} (c : gmap nat D) (refs : list nat) :
  NoDup refs →
  length (lookup_in c refs) = length (filter (λ k, is_Some (c !! k)) refs).
Proof.
  intros Hnd. rewrite <-(length_fmap fst (lookup_in c refs)).
  apply Permutation_length, NoDup_Permutation.
  - apply NoDup_fst_map_to_list.
  - by apply NoDup_filter.
  - intros k. rewrite list_elem_of_fmap, list_elem_of_filter. split.
    + intros ([k' d] & -> & [Hk Hin]%elem_of_lookup_in). split; [by eexists|done].
    + intros [[d Hk] Hin]. exists (k, d). split; [done|].
      by apply elem_of_lookup_in.
Qed.

Lemma lookup_in_dangling {D} (c : gmap nat D) (refs : list nat) :
  (∀ k, k ∈ refs → c !! k = None) → lookup_in c refs = [].
Proof.
  intros Hno. unfold lookup_in. apply map_to_list_empty_iff, map_empty.
  intros k. apply map_lookup_filter_None. right. intros d Hk Hin. simpl in Hin.
  rewrite (Hno k Hin) in Hk. discriminate.
Qed.

(** X23.  [getUserPlaylists] answers a malformed user id with 400 and a
    well-formed one with 200 and exactly the stored playlists of that
    user.  [totalVideos] counts the references of the playlist that are
    stored videos: a reference to a video that is gone is not counted, and
    a playlist all of whose videos are gone shows zero videos and zero
    views.  The handler never writes. *)
Theorem user_playlists_listing (w : nat) (s : string) (db : Db) :
  getUserPlaylists (Malformed s) db = (inl (ApiError 400 "Invalid UserId"), db) ∧
  getUserPlaylists (Oid w) db =
    (inr (mkResponse 200 []
            (new_ApiResponse 200
               (JArr (playlistSummary_json <$> userPlaylistsAggregate w db))
               (Some "User playlists fetched successfully") true)), db) ∧
  ∀ x, x ∈ userPlaylistsAggregate w db ↔
       ∃ pl, playlists db !! ps_id x = Some pl ∧ Playlist.owner pl = Some w ∧
             ps_name x = Playlist.name pl ∧
             ps_description x = Playlist.description pl ∧
             ps_totalVideos x = length (lookup_in (videos db) (Playlist.videos pl)) ∧
             ps_totalViews x =
               sum_list ((λ v : nat * Video.doc, Video.views v.2)
                           <$> lookup_in (videos db) (Playlist.videos pl)) ∧
             (NoDup (Playlist.videos pl) →
              ps_totalVideos x =
                length (filter (λ v, is_Some (videos db !! v)) (Playlist.videos pl))) ∧
             ((∀ v, v ∈ Playlist.videos pl → videos db !! v = None) →
              ps_totalVideos x = 0 ∧ ps_totalViews x = 0).
Proof.
  split; [done|]. split; [done|].
  intros x. unfold userPlaylistsAggregate. rewrite list_elem_of_fmap. split.
  - intros ([k pl] & -> & [Hk Hq]%elem_of_find_docs).
    apply bool_decide_eq_true in Hq. simpl. exists pl.
    repeat split; try done.
    + intros Hnd. by apply length_lookup_in.
    + by rewrite lookup_in_dangling.
    + by rewrite lookup_in_dangling.
  - intros (pl & Hk & Ho & Hn & Hd & Hv & Hs & _).
    exists (ps_id x, pl). split.
    + destruct x. simpl in *. by subst.
    + apply elem_of_find_docs. split; [done|]. by apply bool_decide_eq_true.
Qed.

Lemma existsb_published (vs : list (nat * Video.doc)) :
  existsb (λ v : nat * Video.doc, Video.isPublished v.2) vs = true ↔
  ∃ v vd, (v, vd) ∈ vs ∧ Video.isPublished vd = true.
Proof.
  rewrite existsb_exists. split.
  - intros ([v vd] & Hin%list_elem_of_In & Hp). eauto.
  - intros (v & vd & Hin%list_elem_of_In & Hp). by exists (v, vd).
Qed.

Lemma playlistByIdAggregate_eq (p : nat) (db : Db) :
  playlistByIdAggregate p db =
    match playlists db !! p with
    | Some pl =>
        let vs := lookup_in (videos db) (Playlist.videos pl) in
        if existsb (λ v : nat * Video.doc, Video.isPublished v.2) vs
        then [mkPlaylistDetail p (Playlist.name pl) (Playlist.description pl)
                (length vs)
                (sum_list ((λ v : nat * Video.doc, Video.views v.2) <$> vs)) vs
                ((λ o : nat * User.doc, User.fullName o.2)
                   <$> head (lookup_by_id (users db) (Playlist.owner pl)))]
        else []
    | None => []
    end.
Proof.
  unfold playlistByIdAggregate, lookup_by_id.
  destruct (playlists db !! p) as [pl|]; simpl; [|done].
  rewrite filter_cons. simpl.
  destruct (existsb _ _) eqn:He.
  - by rewrite decide_True.
  - by rewrite decide_False.
Qed.

(** X24.  [getPlaylistById] answers a malformed id with 400 and any other
    with 200, and never writes.  The published test is on the playlist,
    not on its videos: when one stored video of the playlist is published,
    the playlist is returned with every stored video it refers to,
    unpublished ones included; when none is (an empty playlist among
    them), or when the playlist is not stored, the answer carries no
    data. *)
Theorem playlist_by_id (p : nat) (s : string) (db : Db) :
  getPlaylistById (Malformed s) db = (inl (ApiError 400 "Invalid PlaylistId"), db) ∧
  (∀ pl v vd,
     playlists db !! p = Some pl → v ∈ Playlist.videos pl →
     videos db !! v = Some vd → Video.isPublished vd = true →
     ∃ d, getPlaylistById (Oid p) db =
            (inr (mkResponse 200 []
                    (new_ApiResponse 200 (playlistDetail_json d)
                       (Some "Playlist fetched successfully") true)), db) ∧
          pd_id d = p ∧ pd_name d = Playlist.name pl ∧
          pd_totalVideos d = length (pd_videos d) ∧
          ∀ w wd, (w, wd) ∈ pd_videos d ↔
                  w ∈ Playlist.videos pl ∧ videos db !! w = Some wd) ∧
  ((∀ pl v vd, playlists db !! p = Some pl → v ∈ Playlist.videos pl →
               videos db !! v = Some vd → Video.isPublished vd = false) →
   getPlaylistById (Oid p) db =
     (inr (mkResponse 200 []
             (new_ApiResponse 200 JNull
                (Some "Playlist fetched successfully") true)), db)).
Proof.
  split; [done|]. split.
  - intros pl v vd Hp Hin Hv Hpub.
    unfold getPlaylistById, cast, bind, aggregate, ret, respond. simpl.
    rewrite playlistByIdAggregate_eq, Hp. simpl.
    rewrite (proj2 (existsb_published _)).
    + eexists. split; [done|]. simpl. split; [done|]. split; [done|].
      split; [done|]. intros w wd. rewrite elem_of_lookup_in. tauto.
    + exists v, vd. split; [by apply elem_of_lookup_in|done].
  - intros Hnone.
    unfold getPlaylistById, cast, bind, aggregate, ret, respond. simpl.
    rewrite playlistByIdAggregate_eq.
    destruct (playlists db !! p) as [pl|] eqn:Hp; [|done]. simpl.
    destruct (existsb _ _) eqn:He; [|done].
    apply existsb_published in He as (v & vd & [Hv Hin]%elem_of_lookup_in & Hpub).
    rewrite (Hnone pl v vd eq_refl Hin Hv) in Hpub. discriminate.
Qed.
End playlist_listings.

(* ===================================================================== *)
(** ** Further properties of login and registration                       *)
(* ===================================================================== *)

Section more_users.
Variable bcrypt_compare : string → string → bool.
Variables trim toLowerCase normalise : string → string.
Variable uploadOnCloudinary : option string → option string.
Variable User_create : NewUser → M (nat * User.doc).

Lemma findOne_users_Some (q : User.doc → bool) (id : nat) (u : User.doc) (db : Db) :
  users db !! id = Some u → q u = true → is_Some (head (find_docs q (users db))).
Proof.
  intros Hid Hq. destruct (head (find_docs q (users db))) eqn:Hhd; [done|].
  apply head_find_docs_None in Hhd.
  rewrite (countDocuments_delete _ _ _ _ Hid), Hq in Hhd. discriminate.
Qed.

Lemma findOne_users_None (q : User.doc → bool) (db : Db) :
  (∀ id u, users db !! id = Some u → q u = false) →
  head (find_docs q (users db)) = None.
Proof. intros Hno. by rewrite find_docs_none. Qed.

Lemma names_query (userName email : option string) (u : User.doc) :
  bool_decide (Some (User.userName u) = userName) ||
  bool_decide (Some (User.email u) = email) = true ↔
  Some (User.userName u) = userName ∨ Some (User.email u) = email.
Proof. by rewrite orb_true_iff, !bool_decide_eq_true. Qed.

(** X25.  [loginUser] rejects, without reading the password and without
    writing: with 400 a request that lacks the user name or the email;
    with 404 a request that carries both when no stored user has the user
    name or the email that the schema normalises them to. *)
Theorem login_rejections (req : LoginBody) (db : Db) :
  (truthy (lb_userName req) = false ∨ truthy (lb_email req) = false →
   loginUser bcrypt_compare normalise req db =
     (inl (ApiError 400 "UserName or Email Required"), db)) ∧
  (truthy (lb_userName req) = true → truthy (lb_email req) = true →
   (∀ id u, users db !! id = Some u → ¬ names normalise req u) →
   loginUser bcrypt_compare normalise req db =
     (inl (ApiError 404 "User does not exists"), db)).
Proof.
  split.
  - intros Hmiss. unfold loginUser. cbv zeta.
    by destruct Hmiss as [-> | ->]; [|rewrite orb_true_r].
  - intros Hn He Hno. unfold loginUser, findOne, bind, throw. cbv zeta.
    rewrite Hn, He. simpl. rewrite findOne_users_None; [done|].
    intros id u Hid. apply not_true_is_false. rewrite names_query.
    exact (Hno id u Hid).
Qed.

(** X26.  [registerUser] rejects before it uploads or stores anything:
    with 400 a request one of whose supplied fields is blank; with 409 a
    request whose user name or email, as the schema normalises them, is
    that of a stored user.  A field that is absent is not blank: a request
    with no field at all passes the first test and, carrying no file, is
    refused for its avatar. *)
Theorem registerUser_rejections (req : RegisterBody) (files : option Files) (db : Db) :
  (some_blank trim req = true →
   registerUser trim toLowerCase normalise uploadOnCloudinary User_create req files db =
     (inl (ApiError 400 "All Fields are Required"), db)) ∧
  (some_blank trim req = false →
   ∀ id u, users db !! id = Some u → taken normalise req u →
     registerUser trim toLowerCase normalise uploadOnCloudinary User_create req files db =
       (inl (ApiError 409 "User with Email or Username already exists"), db)) ∧
  registerUser trim toLowerCase normalise uploadOnCloudinary User_create
      (mkRegisterBody None None None None) None db =
    (inl (ApiError 400 "Avatar file is Required"), db).
Proof.
  split; [|split].
  - intros Hblank. unfold registerUser. by rewrite Hblank.
  - intros Hblank id u Hid Hsame. unfold registerUser, findOne, bind, throw.
    rewrite Hblank. simpl.
    destruct (findOne_users_Some
                (λ u, bool_decide (Some (User.userName u) = normalise <$> rb_userName req) ||
                      bool_decide (Some (User.email u) = normalise <$> rb_email req))
                id u db Hid
                (proj2 (names_query (normalise <$> rb_userName req)
                          (normalise <$> rb_email req) u) Hsame))
      as [[id' u'] ->]. done.
  - unfold registerUser, findOne, bind, throw. simpl.
    rewrite findOne_users_None; [done|]. by intros id u _.
Qed.

(** X27.  The version of [registerUser] that does not await its query for
    an existing user registers nobody: every request is answered 400 (a
    blank field) or 409, whatever is stored, and nothing is uploaded or
    written. *)
Theorem registerUser_unawaited_registers_nobody (req : RegisterBody)
    (files : option Files) (db : Db) :
  registerUser_unawaited trim toLowerCase uploadOnCloudinary User_create req files db =
    (inl (if some_blank trim req
          then ApiError 400 "All Fields are Required"
          else ApiError 409 "User with Email or Username already exists"), db).
Proof. unfold registerUser_unawaited. by destruct (some_blank trim req). Qed.
End more_users.

(** Bob is stored.  A login that names nobody stored is answered 404; one
    that spells bob's user name in capitals is not. *)
Lemma login_rejections_witness :
  let nobody := mkLoginBody (Some "carol@example.com") (Some "carol") (Some "secret") in
  let capitals := mkLoginBody (Some "carol@example.com") (Some "BOB") (Some "secret") in
  loginUser toy_compare ascii_normalise nobody db_with_bob =
    (inl (ApiError 404 "User does not exists"), db_with_bob) ∧
  names ascii_normalise capitals bob ∧
  outcome (loginUser toy_compare ascii_normalise capitals db_with_bob) ≠
    inl (ApiError 404 "User does not exists").
Proof.
  intros nobody capitals. split; [|split; [by left|by vm_compute]].
  apply (proj2 (login_rejections toy_compare ascii_normalise nobody db_with_bob));
    [reflexivity|reflexivity|].
  intros id u Hid. change (users db_with_bob) with ({[0 := bob]} : gmap nat User.doc) in Hid.
  apply lookup_singleton_Some in Hid as [<- <-]. intros [Hn|Hn]; discriminate Hn.
Defined.

(** Bob is stored.  A registration under the user name BOB is answered
    409, whatever files it carries. *)
Lemma registerUser_rejections_witness :
  let req := mkRegisterBody (Some "BOB") (Some "new@example.com") (Some "Bob")
               (Some "secret") in
  let create := (λ _ : NewUser, throw (Error "not reached")) in
  some_blank trimmed req = false ∧
  users db_with_bob !! 0 = Some bob ∧
  taken ascii_normalise req bob ∧
  registerUser trimmed lower_cased ascii_normalise id create req None db_with_bob =
    (inl (ApiError 409 "User with Email or Username already exists"), db_with_bob).
Proof.
  intros req create.
  assert (Ht : taken ascii_normalise req bob) by (left; reflexivity).
  split; [reflexivity|]. split; [reflexivity|]. split; [exact Ht|].
  exact (proj1 (proj2 (registerUser_rejections trimmed lower_cased ascii_normalise id
                         create req None db_with_bob)) eq_refl 0 bob eq_refl Ht).
Defined.
